(** * Shopify theme tools: the three entry points and their REST helper

    A shallow embedding of [src/index.js] (SSE transport), [src/server.js]
    (streamable HTTP transport) and the third entry point (stdio transport),
    with the fragment of the JavaScript runtime that they use.

    Strings are byte strings holding UTF-8 text.  Numbers are kept integral:
    the numbers that the program handles (status codes, ids, sizes, lengths)
    are integers, and they print in plain decimal, as JavaScript prints the
    integers that it holds exactly. *)

From Stdlib Require Import ZArith String Ascii List.
From stdpp Require Import base strings gmap list pretty.

Local Open Scope Z_scope.

Set Warnings "-register-all".

(* ===================================================================== *)
(** ** The JavaScript values and operators that the program uses          *)
(* ===================================================================== *)

Module JS.

Inductive value : Type :=
| VUndefined
| VNull
| VBool (b : bool)
| VNum (n : Z)
| VStr (s : string)
| VArr (xs : list value)
| VObj (props : list (string * value)).

(** What a [throw] carries. [Error m] is [new Error(m)]; [TypeError] is
    raised by the runtime on a member access through [undefined] or [null]
    and on a call of something that is not a function; [NetError] is the
    argument of the request's ['error'] event. *)
Inductive exn : Type :=
| Error (message : string)
| TypeError
| NetError (e : string).

Inductive completion (A : Type) : Type :=
| Normal (a : A)
| Throw (e : exn).
Arguments Normal {A} a.
Arguments Throw {A} e.

Definition str_truthy (s : string) : bool :=
  match s with "" => false | _ => true end.

(** ToBoolean. *)
Definition truthy (v : value) : bool :=
  match v with
  | VUndefined | VNull => false
  | VBool b => b
  | VNum n => negb (n =? 0)
  | VStr s => str_truthy s
  | VArr _ | VObj _ => true
  end.

(** [a || b]. *)
Definition or_ (a b : value) : value := if truthy a then a else b.

(** [a || b] where [a] is an optional string and [b] a string, as in
    [theme_id || ACTIVE_THEME_ID] and [process.env.X || 'literal']. *)
Definition or_str (a : option string) (b : string) : string :=
  match a with
  | Some s => if str_truthy s then s else b
  | None => b
  end.

Fixpoint join (sep : string) (l : list string) : string :=
  match l with
  | [] => ""
  | [s] => s
  | s :: l' => s +:+ sep +:+ join sep l'
  end.

(** [String(v)], and [${v}] in a template literal. *)
Fixpoint String_ (v : value) : string :=
  match v with
  | VUndefined => "undefined"
  | VNull => "null"
  | VBool true => "true"
  | VBool false => "false"
  | VNum n => pretty n
  | VStr s => s
  | VArr xs =>
      join ","
        ((fix elems (l : list value) : list string :=
            match l with
            | [] => []
            | VUndefined :: l' | VNull :: l' => "" :: elems l'
            | x :: l' => String_ x :: elems l'
            end) xs)
  | VObj _ => "[object Object]"
  end.

Fixpoint assoc (k : string) (props : list (string * value)) : option value :=
  match props with
  | [] => None
  | (k', v) :: props' => if String.eqb k k' then Some v else assoc k props'
  end.

(** [v.k] for the member names that the program reads ([themes], [assets],
    [asset], [theme], [id], [name], [role], [updated_at], [key], [size],
    [value], [attachment]): none of them is a built-in member of a string,
    a number, a boolean, an array or [Object.prototype], so only an own
    property of an object can answer. *)
Definition get (v : value) (k : string) : completion value :=
  match v with
  | VUndefined | VNull => Throw TypeError
  | VObj props => Normal (default VUndefined (assoc k props))
  | _ => Normal VUndefined
  end.

(** [v[0]].  On a string this is its first character; the embedding takes
    the first byte, which is that character for ASCII text. *)
Definition index0 (v : value) : completion value :=
  match v with
  | VUndefined | VNull => Throw TypeError
  | VArr xs => Normal (default VUndefined (head xs))
  | VObj props => Normal (default VUndefined (assoc "0" props))
  | VStr (String c _) => Normal (VStr (String c ""))
  | _ => Normal VUndefined
  end.

Fixpoint mapM {A B : Type} (f : A → completion B) (l : list A) : completion (list B) :=
  match l with
  | [] => Normal []
  | x :: l' =>
      match f x with
      | Throw e => Throw e
      | Normal y =>
          match mapM f l' with
          | Throw e => Throw e
          | Normal ys => Normal (y :: ys)
          end
      end
  end.

(** [v.map(f)]: only an array has a [map] member; through [undefined] the
    member access fails, on anything else the call does. *)
Definition map_ (v : value) (f : value → completion value) : completion value :=
  match v with
  | VArr xs =>
      match mapM f xs with
      | Normal ys => Normal (VArr ys)
      | Throw e => Throw e
      end
  | _ => Throw TypeError
  end.

(** *** [JSON.stringify] *)

Definition hex_digit (upper : bool) (n : N) : ascii :=
  match n with
  | 0 => "0" | 1 => "1" | 2 => "2" | 3 => "3" | 4 => "4" | 5 => "5"
  | 6 => "6" | 7 => "7" | 8 => "8" | 9 => "9"
  | 10 => if upper then "A" else "a"
  | 11 => if upper then "B" else "b"
  | 12 => if upper then "C" else "c"
  | 13 => if upper then "D" else "d"
  | 14 => if upper then "E" else "e"
  | _ => if upper then "F" else "f"
  end%char%N.

(** The two hexadecimal digits of a byte. *)
Definition hex2 (upper : bool) (c : ascii) : string :=
  let n := N_of_ascii c in
  String (hex_digit upper (n / 16)%N) (String (hex_digit upper (n mod 16)%N) "").

Definition dquote : string := String (ascii_of_N 34) "".

(** One character of a quoted JSON string. *)
Definition quote_char (c : ascii) : string :=
  let n := N_of_ascii c in
  if (n =? 34)%N then "\" +:+ dquote
  else if (n =? 92)%N then "\\"
  else if (n =? 8)%N then "\b"
  else if (n =? 9)%N then "\t"
  else if (n =? 10)%N then "\n"
  else if (n =? 12)%N then "\f"
  else if (n =? 13)%N then "\r"
  else if (n <? 32)%N then "\u00" +:+ hex2 false c
  else String c "".

Fixpoint quote_body (s : string) : string :=
  match s with
  | "" => ""
  | String c s' => quote_char c +:+ quote_body s'
  end.

(** QuoteJSONString. *)
Definition quote (s : string) : string := dquote +:+ quote_body s +:+ dquote.

Definition newline : string := String (ascii_of_N 10) "".

(** The closing steps of SerializeJSONArray and SerializeJSONObject. *)
Definition wrap (opening closing gap stepback : string) (partial : list string) : string :=
  match partial with
  | [] => opening +:+ closing
  | _ =>
      if str_truthy gap
      then
        let indent := stepback +:+ gap in
        opening +:+ newline +:+ indent
          +:+ join ("," +:+ newline +:+ indent) partial
          +:+ newline +:+ stepback +:+ closing
      else opening +:+ join "," partial +:+ closing
  end.

(** SerializeJSONProperty; [None] is the [undefined] that the caller drops
    (in an object) or replaces by [null] (in an array). *)
Fixpoint serialize (gap stepback : string) (v : value) : option string :=
  match v with
  | VUndefined => None
  | VNull => Some "null"
  | VBool true => Some "true"
  | VBool false => Some "false"
  | VNum n => Some (pretty n)
  | VStr s => Some (quote s)
  | VArr xs =>
      Some (wrap "[" "]" gap stepback
        ((fix elems (l : list value) : list string :=
            match l with
            | [] => []
            | x :: l' =>
                default "null" (serialize gap (stepback +:+ gap) x) :: elems l'
            end) xs))
  | VObj props =>
      Some (wrap "{" "}" gap stepback
        ((fix members (l : list (string * value)) : list string :=
            match l with
            | [] => []
            | (k, x) :: l' =>
                match serialize gap (stepback +:+ gap) x with
                | Some s =>
                    (quote k +:+ ":" +:+ (if str_truthy gap then " " else "") +:+ s)
                      :: members l'
                | None => members l'
                end
            end) props))
  end.

Fixpoint spaces (n : nat) : string :=
  match n with
  | O => ""
  | S n' => String " " (spaces n')
  end.

(** [JSON.stringify(v)] is [JSON_stringify v 0] and
    [JSON.stringify(v, null, 2)] is [JSON_stringify v 2]; the result is a
    string or [undefined]. *)
Definition JSON_stringify (v : value) (space : nat) : value :=
  match serialize (spaces space) "" v with
  | Some s => VStr s
  | None => VUndefined
  end.

(** *** [encodeURIComponent] *)

Definition uri_unreserved (c : ascii) : bool :=
  let n := N_of_ascii c in
  ((65 <=? n) && (n <=? 90) || (97 <=? n) && (n <=? 122)
   || (48 <=? n) && (n <=? 57))%N
  || existsb (Ascii.eqb c)
       ["-"; "_"; "."; "!"; "~"; "*"; "'"; "("; ")"]%char.

(** Every byte of the UTF-8 text that is not unreserved is escaped. *)
Fixpoint encodeURIComponent (s : string) : string :=
  match s with
  | "" => ""
  | String c s' =>
      (if uri_unreserved c then String c "" else "%" +:+ hex2 true c)
        +:+ encodeURIComponent s'
  end.

End JS.

Import JS.

(* ===================================================================== *)
(** ** The upstream service and the effects of a tool call               *)
(* ===================================================================== *)

(** The options object handed to [https.request]. *)
Record RequestOptions : Type := {
  hostname : string;
  port : Z;
  path : string;
  method : string;
  headers : list (string * value);
}.

(** One outbound call: the options, and the body given to [req.write], if
    any, before [req.end()]. *)
Record Outbound : Type := {
  options : RequestOptions;
  written : option string;
}.

(** What comes back: a response with its status code and the text of each
    ['data'] event in order, or an ['error'] event. *)
Inductive Upstream : Type :=
| Answer (statusCode : Z) (chunks : list string)
| Failure (e : string).

(** A computation that may throw and that appends to the list of outbound
    calls made so far.  An [async] function that awaits a rejected promise
    throws what the promise was rejected with, and an [async] function that
    throws returns a rejected promise, so [Throw] stands for both. *)
Definition M (A : Type) : Type := list Outbound → completion A * list Outbound.

#[global] Instance M_ret : MRet M := λ A a wire, (Normal a, wire).

#[global] Instance M_bind : MBind M := λ A B f m wire,
  match m wire with
  | (Normal a, wire') => f a wire'
  | (Throw e, wire') => (Throw e, wire')
  end.

Definition lift {A : Type} (c : completion A) : M A := λ wire, (c, wire).

(** The outcome of a computation started with nothing sent yet. *)
Definition run {A : Type} (m : M A) : completion A * list Outbound := m [].

(* ===================================================================== *)
(** ** Configuration                                                      *)
(* ===================================================================== *)

(** The module-level constants, as read from [process.env]. *)
Record config : Type := {
  SHOP : string;
  TOKEN : value;
  ACTIVE_THEME_ID : string;
  PORT : value;
}.

Definition API_VERSION : string := "2026-04".

Definition env_value (env : gmap string string) (name : string) : value :=
  match env !! name with
  | Some s => VStr s
  | None => VUndefined
  end.

Definition read_env (env : gmap string string) : config := {|
  SHOP := or_str (env !! "SHOPIFY_SHOP") "ciro-jewelry.myshopify.com";
  TOKEN := env_value env "SHOPIFY_ACCESS_TOKEN";
  ACTIVE_THEME_ID := or_str (env !! "SHOPIFY_ACTIVE_THEME_ID") "161795899724";
  PORT := or_ (env_value env "PORT") (VNum 3457);
|}.

(* ===================================================================== *)
(** ** The REST helper                                                    *)
(* ===================================================================== *)

Module Rest.
Section Rest.

(** The three copies of [shopifyRequest] differ in the first words of the
    error message only: ["Shopify API "] in [index.js], ["Shopify "] in the
    other two. *)
Variable errPrefix : string.
Variable cfg : config.
(** [JSON.parse]: [None] when it throws. *)
Variable JSON_parse : string → option value.
Variable net : Outbound → Upstream.

(** [Buffer.byteLength]. *)
Definition byteLength (s : string) : Z := Z.of_nat (String.length s).

Definition shopifyRequest (method path : string) (body : value) : M value :=
  λ wire,
    let bodyStr := if truthy body then JSON_stringify body 0 else VNull in
    let options := {|
      hostname := SHOP cfg;
      port := 443;
      path := "/admin/api/" +:+ API_VERSION +:+ "/" +:+ path;
      method := method;
      headers :=
        ([("X-Shopify-Access-Token", TOKEN cfg);
          ("Content-Type", VStr "application/json")]
         ++ (if truthy bodyStr
             then [("Content-Length", VNum (byteLength (String_ bodyStr)))]
             else []))%list;
    |} in
    let req := {|
      options := options;
      written := if truthy bodyStr then Some (String_ bodyStr) else None;
    |} in
    (match net req with
     | Answer statusCode chunks =>
         let data := fold_left (λ data chunk, data +:+ chunk) chunks "" in
         if 400 <=? statusCode
         then Throw (Error (errPrefix +:+ pretty statusCode +:+ ": " +:+ data))
         else
           match JSON_parse data with
           | Some v => Normal v
           | None => Normal (VStr data)
           end
     | Failure e => Throw (NetError e)
     end,
     (wire ++ [req])%list).

End Rest.
End Rest.

(* ===================================================================== *)
(** ** The seven tools, once per entry point                             *)
(* ===================================================================== *)

#[global] Instance completion_ret : MRet completion := λ A a, Normal a.

#[global] Instance completion_bind : MBind completion := λ A B f c,
  match c with
  | Normal a => f a
  | Throw e => Throw e
  end.

(** What a tool handler returns: [{ content: [{ type, text }] }]. *)
Record ContentItem : Type := {
  type : string;
  text : value;
}.

Record ToolResult : Type := {
  content : list ContentItem;
}.

Definition text_content (t : value) : ToolResult :=
  {| content := [ {| type := "text"; text := t |} ] |}.

(** *** [src/index.js]: the SSE entry point *)

Module IndexJs.
Section Tools.

Variable cfg : config.
Variable JSON_parse : string → option value.
Variable net : Outbound → Upstream.

Definition shopifyRequest : string → string → value → M value :=
  Rest.shopifyRequest "Shopify API " cfg JSON_parse net.

Definition shopify_list_themes : M ToolResult :=
  data ← shopifyRequest "GET" "themes.json" VUndefined;
  themes ← lift (
    all ← get data "themes";
    map_ all (λ t,
      id ← get t "id";
      name ← get t "name";
      role ← get t "role";
      updated_at ← get t "updated_at";
      mret (VObj [("id", VStr (String_ id)); ("name", name); ("role", role);
                  ("updated_at", updated_at)])));
  mret (text_content (JSON_stringify themes 2)).

Definition shopify_get_active_theme : M ToolResult :=
  data ← shopifyRequest "GET" "themes.json?role=main" VUndefined;
  first ← lift (themes ← get data "themes"; index0 themes);
  mret (text_content (JSON_stringify (or_ first VNull) 2)).

Definition shopify_list_theme_files (theme_id : option string) : M ToolResult :=
  let id := or_str theme_id (ACTIVE_THEME_ID cfg) in
  data ← shopifyRequest "GET" ("themes/" +:+ id +:+ "/assets.json") VUndefined;
  files ← lift (
    assets ← get data "assets";
    map_ assets (λ a,
      key ← get a "key";
      size ← get a "size";
      updated_at ← get a "updated_at";
      mret (VObj [("key", key); ("size", size); ("updated_at", updated_at)])));
  mret (text_content (JSON_stringify files 2)).

Definition shopify_read_file (key : string) (theme_id : option string) : M ToolResult :=
  let id := or_str theme_id (ACTIVE_THEME_ID cfg) in
  data ← shopifyRequest "GET"
    ("themes/" +:+ id +:+ "/assets.json?asset[key]=" +:+ encodeURIComponent key)
    VUndefined;
  content ← lift (
    asset ← get data "asset";
    value ← get asset "value";
    attachment ← get asset "attachment";
    mret (or_ (or_ value attachment) (VStr "(binary or no content)")));
  mret (text_content content).

Definition shopify_write_file (key value : string) (theme_id : option string) : M ToolResult :=
  let id := or_str theme_id (ACTIVE_THEME_ID cfg) in
  data ← shopifyRequest "PUT" ("themes/" +:+ id +:+ "/assets.json")
    (VObj [("asset", VObj [("key", VStr key); ("value", VStr value)])]);
  out ← lift (
    asset ← get data "asset";
    key' ← get asset "key";
    updated_at ← get asset "updated_at";
    mret (VObj [("success", VBool true); ("key", key'); ("updated_at", updated_at)]));
  mret (text_content (JSON_stringify out 2)).

Definition shopify_duplicate_theme (theme_id new_name : string) : M ToolResult :=
  newThemeData ← shopifyRequest "POST" "themes.json"
    (VObj [("theme", VObj [
       ("name", VStr new_name);
       ("role", VStr "unpublished");
       ("src", VStr ("https://" +:+ SHOP cfg +:+ "/admin/themes/" +:+ theme_id
                      +:+ "/duplicate"))])]);
  out ← lift (
    t ← get newThemeData "theme";
    id ← get t "id";
    name ← get t "name";
    mret (VObj [("success", VBool true);
                ("new_theme", VObj [("id", VStr (String_ id)); ("name", name)])]));
  mret (text_content (JSON_stringify out 2)).

Definition shopify_get_theme_settings (theme_id : option string) : M ToolResult :=
  let id := or_str theme_id (ACTIVE_THEME_ID cfg) in
  data ← shopifyRequest "GET"
    ("themes/" +:+ id +:+ "/assets.json?asset[key]=config%2Fsettings_data.json")
    VUndefined;
  content ← lift (
    asset ← get data "asset";
    value ← get asset "value";
    mret (or_ value (VStr "(empty)")));
  mret (text_content content).

End Tools.
End IndexJs.

(** *** [src/server.js]: the streamable HTTP entry point *)

Module ServerJs.
Section Tools.

Variable cfg : config.
Variable JSON_parse : string → option value.
Variable net : Outbound → Upstream.

Definition shopifyRequest : string → string → value → M value :=
  Rest.shopifyRequest "Shopify " cfg JSON_parse net.

Definition shopify_list_themes : M ToolResult :=
  data ← shopifyRequest "GET" "themes.json" VUndefined;
  themes ← lift (
    all ← get data "themes";
    map_ all (λ t,
      id ← get t "id";
      name ← get t "name";
      role ← get t "role";
      mret (VObj [("id", VStr (String_ id)); ("name", name); ("role", role)])));
  mret (text_content (JSON_stringify themes 2)).

Definition shopify_get_active_theme : M ToolResult :=
  data ← shopifyRequest "GET" "themes.json?role=main" VUndefined;
  first ← lift (themes ← get data "themes"; index0 themes);
  mret (text_content (JSON_stringify first 2)).

Definition shopify_list_theme_files (theme_id : option string) : M ToolResult :=
  data ← shopifyRequest "GET"
    ("themes/" +:+ or_str theme_id (ACTIVE_THEME_ID cfg) +:+ "/assets.json")
    VUndefined;
  keys ← lift (assets ← get data "assets"; map_ assets (λ a, get a "key"));
  mret (text_content (JSON_stringify keys 2)).

Definition shopify_read_file (key : string) (theme_id : option string) : M ToolResult :=
  data ← shopifyRequest "GET"
    ("themes/" +:+ or_str theme_id (ACTIVE_THEME_ID cfg)
       +:+ "/assets.json?asset[key]=" +:+ encodeURIComponent key)
    VUndefined;
  content ← lift (
    asset ← get data "asset";
    value ← get asset "value";
    mret (or_ value (VStr "(binary)")));
  mret (text_content content).

Definition shopify_write_file (key value : string) (theme_id : option string) : M ToolResult :=
  data ← shopifyRequest "PUT"
    ("themes/" +:+ or_str theme_id (ACTIVE_THEME_ID cfg) +:+ "/assets.json")
    (VObj [("asset", VObj [("key", VStr key); ("value", VStr value)])]);
  out ← lift (
    asset ← get data "asset";
    key' ← get asset "key";
    mret (VObj [("success", VBool true); ("key", key')]));
  mret (text_content (JSON_stringify out 0)).

Definition shopify_duplicate_theme (theme_id new_name : string) : M ToolResult :=
  data ← shopifyRequest "POST" "themes.json"
    (VObj [("theme", VObj [
       ("name", VStr new_name);
       ("role", VStr "unpublished");
       ("src", VStr ("https://" +:+ SHOP cfg +:+ "/admin/themes/" +:+ theme_id
                      +:+ "/duplicate"))])]);
  out ← lift (
    theme ← get data "theme";
    id ← get theme "id";
    name ← get theme "name";
    mret (VObj [("success", VBool true); ("id", VStr (String_ id)); ("name", name)]));
  mret (text_content (JSON_stringify out 0)).

Definition shopify_get_theme_settings (theme_id : option string) : M ToolResult :=
  data ← shopifyRequest "GET"
    ("themes/" +:+ or_str theme_id (ACTIVE_THEME_ID cfg)
       +:+ "/assets.json?asset[key]=config%2Fsettings_data.json")
    VUndefined;
  content ← lift (
    asset ← get data "asset";
    value ← get asset "value";
    mret (or_ value (VStr "(empty)")));
  mret (text_content content).

End Tools.
End ServerJs.

(** *** The stdio entry point *)

Module StdioJs.
Section Tools.

Variable cfg : config.
Variable JSON_parse : string → option value.
Variable net : Outbound → Upstream.

Definition shopifyRequest : string → string → value → M value :=
  Rest.shopifyRequest "Shopify " cfg JSON_parse net.

Definition shopify_list_themes : M ToolResult :=
  data ← shopifyRequest "GET" "themes.json" VUndefined;
  themes ← lift (
    all ← get data "themes";
    map_ all (λ t,
      id ← get t "id";
      name ← get t "name";
      role ← get t "role";
      mret (VObj [("id", VStr (String_ id)); ("name", name); ("role", role)])));
  mret (text_content (JSON_stringify themes 2)).

Definition shopify_get_active_theme : M ToolResult :=
  data ← shopifyRequest "GET" "themes.json?role=main" VUndefined;
  first ← lift (themes ← get data "themes"; index0 themes);
  mret (text_content (JSON_stringify first 2)).

Definition shopify_list_theme_files (theme_id : option string) : M ToolResult :=
  data ← shopifyRequest "GET"
    ("themes/" +:+ or_str theme_id (ACTIVE_THEME_ID cfg) +:+ "/assets.json")
    VUndefined;
  keys ← lift (assets ← get data "assets"; map_ assets (λ a, get a "key"));
  mret (text_content (JSON_stringify keys 2)).

Definition shopify_read_file (key : string) (theme_id : option string) : M ToolResult :=
  data ← shopifyRequest "GET"
    ("themes/" +:+ or_str theme_id (ACTIVE_THEME_ID cfg)
       +:+ "/assets.json?asset[key]=" +:+ encodeURIComponent key)
    VUndefined;
  content ← lift (
    asset ← get data "asset";
    value ← get asset "value";
    mret (or_ value (VStr "(binary)")));
  mret (text_content content).

Definition shopify_write_file (key value : string) (theme_id : option string) : M ToolResult :=
  data ← shopifyRequest "PUT"
    ("themes/" +:+ or_str theme_id (ACTIVE_THEME_ID cfg) +:+ "/assets.json")
    (VObj [("asset", VObj [("key", VStr key); ("value", VStr value)])]);
  out ← lift (
    asset ← get data "asset";
    key' ← get asset "key";
    updated_at ← get asset "updated_at";
    mret (VObj [("success", VBool true); ("key", key'); ("updated_at", updated_at)]));
  mret (text_content (JSON_stringify out 0)).

Definition shopify_duplicate_theme (theme_id new_name : string) : M ToolResult :=
  data ← shopifyRequest "POST" "themes.json"
    (VObj [("theme", VObj [
       ("name", VStr new_name);
       ("role", VStr "unpublished");
       ("src", VStr ("https://" +:+ SHOP cfg +:+ "/admin/themes/" +:+ theme_id
                      +:+ "/duplicate"))])]);
  out ← lift (
    theme ← get data "theme";
    id ← get theme "id";
    name ← get theme "name";
    mret (VObj [("success", VBool true); ("id", VStr (String_ id)); ("name", name)]));
  mret (text_content (JSON_stringify out 0)).

Definition shopify_get_theme_settings (theme_id : option string) : M ToolResult :=
  data ← shopifyRequest "GET"
    ("themes/" +:+ or_str theme_id (ACTIVE_THEME_ID cfg)
       +:+ "/assets.json?asset[key]=config%2Fsettings_data.json")
    VUndefined;
  content ← lift (
    asset ← get data "asset";
    value ← get asset "value";
    mret (or_ value (VStr "(empty)")));
  mret (text_content content).

End Tools.
End StdioJs.

(* ===================================================================== *)
(** ** The HTTP front of [src/index.js] and its session map               *)
(* ===================================================================== *)

Module SseServer.

(** An [SSEServerTransport]: the session id that the SDK drew for it and
    the response stream that it writes to. *)
Record Transport : Type := {
  sessionId : string;
  stream : nat;
}.

Record IncomingMessage : Type := {
  method : string;
  url : string;
}.

(** What the request listener does to the outside, in order. *)
Inductive action : Type :=
| SetHeader (name content : string)
| WriteHead (status : Z) (headers : list (string * string))
| End_ (body : option string)
| Connect (t : Transport)
| HandlePostMessage (t : Transport).

(** [const transports = {}] is an ordinary object: reading a member that it
    does not own falls through to [Object.prototype]. *)
Definition Object_prototype_names : list string :=
  ["constructor"; "__proto__"; "hasOwnProperty"; "isPrototypeOf";
   "propertyIsEnumerable"; "toLocaleString"; "toString"; "valueOf";
   "__defineGetter__"; "__defineSetter__"; "__lookupGetter__";
   "__lookupSetter__"].

Inductive slot : Type :=
| Own (t : Transport)
| Inherited
| Absent.

(** [transports[k]]. *)
Definition transports_get (transports : gmap string Transport) (k : string) : slot :=
  match transports !! k with
  | Some t => Own t
  | None =>
      if existsb (String.eqb k) Object_prototype_names then Inherited else Absent
  end.

Section Listener.

Variable cfg : config.
(** [new URL(url, base).searchParams.get(name)]; it throws when [base] is
    not a URL. *)
Variable searchParams_get : string → string → string → completion (option string).

Definition cors : list action :=
  [SetHeader "Access-Control-Allow-Origin" "*";
   SetHeader "Access-Control-Allow-Methods" "GET, POST, OPTIONS";
   SetHeader "Access-Control-Allow-Headers" "Content-Type"].

Definition json_body (v : value) : option string :=
  match JSON_stringify v 0 with
  | VStr s => Some s
  | _ => None
  end.

(** The listener given to [http.createServer].  [fresh] is the transport
    that [new SSEServerTransport('/message', res)] would build for this
    request; its session id is a UUID that the SDK draws, so storing it
    makes an own member of [transports].  The result is what the listener
    did, whether it threw, and the session map afterwards. *)
Definition httpServer (transports : gmap string Transport) (fresh : Transport)
    (req : IncomingMessage)
    : list action * completion () * gmap string Transport :=
  if String.eqb (method req) "OPTIONS"
  then ((cors ++ [WriteHead 200 []; End_ None])%list, Normal (), transports)
  else if String.eqb (method req) "GET" && String.eqb (url req) "/health"
  then ((cors ++ [WriteHead 200 [("Content-Type", "application/json")];
                  End_ (json_body (VObj [("status", VStr "ok");
                                         ("service", VStr "shopify-mcp");
                                         ("shop", VStr (SHOP cfg))]))])%list,
        Normal (), transports)
  else if String.eqb (method req) "GET" && String.eqb (url req) "/sse"
  then ((cors ++ [Connect fresh])%list, Normal (),
        <[sessionId fresh := fresh]> transports)
  else if String.eqb (method req) "POST" && String.prefix "/message" (url req)
  then
    match searchParams_get (url req)
            ("http://localhost:" +:+ String_ (PORT cfg)) "sessionId" with
    | Throw e => (cors, Throw e, transports)
    | Normal sessionId =>
        match transports_get transports (default "null" sessionId) with
        | Absent =>
            ((cors ++ [WriteHead 404 [("Content-Type", "application/json")];
                       End_ (json_body (VObj [("error", VStr "Session not found")]))])%list,
             Normal (), transports)
        | Own transport =>
            ((cors ++ [HandlePostMessage transport])%list, Normal (), transports)
        | Inherited => (cors, Throw TypeError, transports)
        end
    end
  else ((cors ++ [WriteHead 404 [];
                  End_ (json_body (VObj [("error", VStr "Not found")]))])%list,
        Normal (), transports).

(** The ['close'] listener that the [/sse] branch puts on the response. *)
Definition on_close (transports : gmap string Transport) (t : Transport)
    : gmap string Transport :=
  delete (sessionId t) transports.

End Listener.

(** The query lookup for a request target whose query holds no escape:
    the text after the first [?] up to a [#], cut at each [&], each piece
    cut at its first [=]. *)
Fixpoint split_at (sep : ascii) (s : string) : string * option string :=
  match s with
  | "" => ("", None)
  | String c s' =>
      if Ascii.eqb c sep then ("", Some s')
      else let '(a, b) := split_at sep s' in (String c a, b)
  end.

Fixpoint pieces (fuel : nat) (sep : ascii) (s : string) : list string :=
  match fuel with
  | O => [s]
  | S fuel' =>
      match split_at sep s with
      | (a, None) => [a]
      | (a, Some b) => a :: pieces fuel' sep b
      end
  end.

Fixpoint first_pair (name : string) (l : list string) : option string :=
  match l with
  | [] => None
  | p :: l' =>
      let '(k, v) := split_at "=" p in
      if String.eqb k name && negb (String.eqb p "") then Some (default "" v)
      else first_pair name l'
  end.

Definition plain_query_get (url base name : string) : completion (option string) :=
  match split_at "?" url with
  | (_, None) => Normal None
  | (_, Some q) =>
      let q' := fst (split_at "#" q) in
      Normal (first_pair name (pieces (String.length q') "&" q'))
  end.

End SseServer.

(* ===================================================================== *)
(** ** The three processes                                                *)
(* ===================================================================== *)

Inductive variant : Type :=
| Sse             (* src/index.js *)
| StreamableHttp  (* src/server.js *)
| Stdio.          (* the stdio entry point *)

(** The tools by name, with the arguments that their input schemas admit:
    a required field is a string, an optional one may be missing. *)
Inductive ToolCall : Type :=
| list_themes
| get_active_theme
| list_theme_files (theme_id : option string)
| read_file (key : string) (theme_id : option string)
| write_file (key value : string) (theme_id : option string)
| duplicate_theme (theme_id new_name : string)
| get_theme_settings (theme_id : option string).

Module Process.
Section Process.

Variable JSON_parse : string → option value.
Variable net : Outbound → Upstream.

Definition shopifyRequest (v : variant) (cfg : config)
    : string → string → value → M value :=
  match v with
  | Sse => IndexJs.shopifyRequest cfg JSON_parse net
  | StreamableHttp => ServerJs.shopifyRequest cfg JSON_parse net
  | Stdio => StdioJs.shopifyRequest cfg JSON_parse net
  end.

(** The handler that [server.tool] registered under the called name. *)
Definition handler (v : variant) (cfg : config) (c : ToolCall) : M ToolResult :=
  match v with
  | Sse =>
      match c with
      | list_themes => IndexJs.shopify_list_themes cfg JSON_parse net
      | get_active_theme => IndexJs.shopify_get_active_theme cfg JSON_parse net
      | list_theme_files theme_id =>
          IndexJs.shopify_list_theme_files cfg JSON_parse net theme_id
      | read_file key theme_id =>
          IndexJs.shopify_read_file cfg JSON_parse net key theme_id
      | write_file key value theme_id =>
          IndexJs.shopify_write_file cfg JSON_parse net key value theme_id
      | duplicate_theme theme_id new_name =>
          IndexJs.shopify_duplicate_theme cfg JSON_parse net theme_id new_name
      | get_theme_settings theme_id =>
          IndexJs.shopify_get_theme_settings cfg JSON_parse net theme_id
      end
  | StreamableHttp =>
      match c with
      | list_themes => ServerJs.shopify_list_themes cfg JSON_parse net
      | get_active_theme => ServerJs.shopify_get_active_theme cfg JSON_parse net
      | list_theme_files theme_id =>
          ServerJs.shopify_list_theme_files cfg JSON_parse net theme_id
      | read_file key theme_id =>
          ServerJs.shopify_read_file cfg JSON_parse net key theme_id
      | write_file key value theme_id =>
          ServerJs.shopify_write_file cfg JSON_parse net key value theme_id
      | duplicate_theme theme_id new_name =>
          ServerJs.shopify_duplicate_theme cfg JSON_parse net theme_id new_name
      | get_theme_settings theme_id =>
          ServerJs.shopify_get_theme_settings cfg JSON_parse net theme_id
      end
  | Stdio =>
      match c with
      | list_themes => StdioJs.shopify_list_themes cfg JSON_parse net
      | get_active_theme => StdioJs.shopify_get_active_theme cfg JSON_parse net
      | list_theme_files theme_id =>
          StdioJs.shopify_list_theme_files cfg JSON_parse net theme_id
      | read_file key theme_id =>
          StdioJs.shopify_read_file cfg JSON_parse net key theme_id
      | write_file key value theme_id =>
          StdioJs.shopify_write_file cfg JSON_parse net key value theme_id
      | duplicate_theme theme_id new_name =>
          StdioJs.shopify_duplicate_theme cfg JSON_parse net theme_id new_name
      | get_theme_settings theme_id =>
          StdioJs.shopify_get_theme_settings cfg JSON_parse net theme_id
      end
  end.

(** What a process does that the outside can see. *)
Inductive event : Type :=
| Stderr (s : string)
| Exit (code : Z)
| Sent (o : Outbound).

(** [console.error(s)]. *)
Definition console_error (s : string) : event := Stderr (s +:+ newline).

(** [process.stderr.write(s)]. *)
Definition stderr_write (s : string) : event := Stderr s.

(** The top of each script: read the environment, then leave if there is
    no token.  [None] says that [process.exit] was called. *)
Definition start (v : variant) (env : gmap string string)
    : list event * option config :=
  let cfg := read_env env in
  if negb (truthy (TOKEN cfg))
  then
    ([match v with
      | Sse =>
          console_error
            "ERROR: SHOPIFY_ACCESS_TOKEN environment variable is required"
      | StreamableHttp | Stdio =>
          stderr_write ("ERROR: SHOPIFY_ACCESS_TOKEN required" +:+ newline)
      end;
      Exit 1],
     None)
  else ([], Some cfg).

(** A process from its start through the tool calls that reach it. *)
Definition main (v : variant) (env : gmap string string) (calls : list ToolCall)
    : list event :=
  match start v env with
  | (evs, None) => evs
  | (evs, Some cfg) =>
      (evs ++ flat_map (λ c, map Sent (snd (run (handler v cfg c)))) calls)%list
  end.

End Process.
End Process.

(* ===================================================================== *)
(** ** Vocabulary of the statements                                       *)
(* ===================================================================== *)

(** The response body as sent: the chunks put end to end. *)
Definition raw_body (chunks : list string) : string := String.concat "" chunks.

(** The first words of the error message of each copy of the helper. *)
Definition error_prefix (v : variant) : string :=
  match v with
  | Sse => "Shopify API "
  | StreamableHttp | Stdio => "Shopify "
  end.

Definition present {A : Type} (o : option A) : bool :=
  match o with
  | Some _ => true
  | None => false
  end.

Definition header (name : string) (o : Outbound) : option value :=
  assoc name (headers (options o)).

(** Where a call goes: [https.request] on port 443. *)
Definition target (o : Outbound) : option string :=
  if port (options o) =? 443
  then Some ("https://" +:+ hostname (options o) +:+ path (options o))
  else None.

(** The text that [JSON.stringify(v)] yields, when it yields one. *)
Definition json_text (v : value) : string := String_ (JSON_stringify v 0).

(** The call of the helper for a method, a path and a body, written out;
    [shopifyRequest_eq] shows that the helper makes this call and no
    other. *)
Definition request_for (cfg : config) (method path : string) (body : value) : Outbound := {|
  options := {|
    hostname := SHOP cfg;
    port := 443;
    path := "/admin/api/2026-04/" +:+ path;
    method := method;
    headers :=
      ([("X-Shopify-Access-Token", TOKEN cfg);
        ("Content-Type", VStr "application/json")]
       ++ (if truthy body
           then [("Content-Length", VNum (Z.of_nat (String.length (json_text body))))]
           else []))%list;
  |};
  written := if truthy body then Some (json_text body) else None;
|}.

(** What the helper settles with, by what came back; [shopifyRequest_eq]
    shows that this is what the helper does. *)
Definition settle (prefix : string) (JSON_parse : string → option value)
    (u : Upstream) : completion value :=
  match u with
  | Answer statusCode chunks =>
      if 400 <=? statusCode
      then Throw (Error (prefix +:+ pretty statusCode +:+ ": " +:+ raw_body chunks))
      else Normal (default (VStr (raw_body chunks)) (JSON_parse (raw_body chunks)))
  | Failure e => Throw (NetError e)
  end.

(** The upstream answers the call [req] with a status below 400 and a body
    that parses to [data]. *)
Definition responds (JSON_parse : string → option value) (net : Outbound → Upstream)
    (req : Outbound) (data : value) : Prop :=
  ∃ statusCode chunks,
    net req = Answer statusCode chunks
    ∧ statusCode < 400
    ∧ JSON_parse (raw_body chunks) = Some data.

(** The text of the single content item of a fulfilled tool call. *)
Definition text_of (r : completion ToolResult * list Outbound) : option value :=
  match fst r with
  | Normal {| content := [ {| type := "text"; text := t |} ] |} => Some t
  | _ => None
  end.

(** [data.asset.k]. *)
Definition asset_field (data : value) (k : string) : completion value :=
  asset ← get data "asset"; get asset k.

(** The call that reads the asset [key] of the theme [theme]. *)
Definition asset_request (cfg : config) (theme : string) (key : string) : Outbound :=
  request_for cfg "GET"
    ("themes/" +:+ theme +:+ "/assets.json?asset[key]=" +:+ encodeURIComponent key)
    VUndefined.

(** The body that [duplicate_theme] posts. *)
Definition duplicate_body (cfg : config) (theme_id new_name : string) : value :=
  VObj [("theme", VObj [
    ("name", VStr new_name);
    ("role", VStr "unpublished");
    ("src", VStr ("https://" +:+ SHOP cfg +:+ "/admin/themes/" +:+ theme_id
                   +:+ "/duplicate"))])].

(** The reply of the SSE entry point to a message for a session that it
    does not know. *)
Definition not_found_reply : list SseServer.action :=
  (SseServer.cors
   ++ [SseServer.WriteHead 404 [("Content-Type", "application/json")];
       SseServer.End_
         (SseServer.json_body (VObj [("error", VStr "Session not found")]))])%list.

Definition is_digit (c : ascii) : bool :=
  ((48 <=? N_of_ascii c) && (N_of_ascii c <=? 57))%N.

Fixpoint all_digits (s : string) : bool :=
  match s with
  | "" => true
  | String c s' => is_digit c && all_digits s'
  end.

(* ===================================================================== *)
(** ** Fixtures                                                           *)
(* ===================================================================== *)

(** An environment with a token and nothing else set. *)
Definition test_env : gmap string string := {[ "SHOPIFY_ACCESS_TOKEN" := "shpat_test" ]}.

Definition test_cfg : config := read_env test_env.

(** An upstream that answers every call alike. *)
Definition always (u : Upstream) : Outbound → Upstream := λ _, u.

(** A stand-in for [JSON.parse] that knows the texts of a table. *)
Definition parse_table (table : list (string * value)) (s : string) : option value :=
  assoc s table.

(** An upstream that answers every call with status 200 and the JSON text
    of [data], and a parser that reads that text back. *)
Definition fixture_net (data : value) : Outbound → Upstream :=
  always (Answer 200 [json_text data]).

Definition fixture_parse (data : value) : string → option value :=
  parse_table [(json_text data, data)].

(** An asset without [value] and without [attachment]. *)
Definition bare_asset : value :=
  VObj [("asset", VObj [("key", VStr "assets/logo.png")])].

(** The answer to [themes.json?role=main] of a shop without a main theme. *)
Definition no_themes : value := VObj [("themes", VArr [])].

(** The answer to a successful duplication. *)
Definition created_theme : value :=
  VObj [("theme", VObj [("id", VNum 99); ("name", VStr "Backup");
                        ("role", VStr "unpublished")])].

(** The transport that a request would get if it opened a stream, for
    requests that do not. *)
Definition spare : SseServer.Transport :=
  {| SseServer.sessionId := "3f0c9a52-7d1e-4b8a-9c6f-2e5d8b1a4c70";
     SseServer.stream := 0 |}.

(* ===================================================================== *)
(** ** Further vocabulary: every tool, and the two HTTP fronts            *)
(* ===================================================================== *)

(** The call that each tool makes; [handler_request] shows that it is the
    one call of the handler, in every entry point. *)
Definition tool_request (cfg : config) (c : ToolCall) : Outbound :=
  match c with
  | list_themes => request_for cfg "GET" "themes.json" VUndefined
  | get_active_theme => request_for cfg "GET" "themes.json?role=main" VUndefined
  | list_theme_files theme_id =>
      request_for cfg "GET"
        ("themes/" +:+ or_str theme_id (ACTIVE_THEME_ID cfg) +:+ "/assets.json")
        VUndefined
  | read_file key theme_id =>
      asset_request cfg (or_str theme_id (ACTIVE_THEME_ID cfg)) key
  | write_file key value theme_id =>
      request_for cfg "PUT"
        ("themes/" +:+ or_str theme_id (ACTIVE_THEME_ID cfg) +:+ "/assets.json")
        (VObj [("asset", VObj [("key", VStr key); ("value", VStr value)])])
  | duplicate_theme theme_id new_name =>
      request_for cfg "POST" "themes.json" (duplicate_body cfg theme_id new_name)
  | get_theme_settings theme_id =>
      request_for cfg "GET"
        ("themes/" +:+ or_str theme_id (ACTIVE_THEME_ID cfg)
           +:+ "/assets.json?asset[key]=config%2Fsettings_data.json")
        VUndefined
  end.

(** The member of the response that each tool reads first. *)
Definition top_member (c : ToolCall) : string :=
  match c with
  | list_themes | get_active_theme => "themes"
  | list_theme_files _ => "assets"
  | read_file _ _ | write_file _ _ _ | get_theme_settings _ => "asset"
  | duplicate_theme _ _ => "theme"
  end.

(** [undefined] or [null]: what a member access throws on. *)
Definition nullish (v : value) : bool :=
  match v with
  | VUndefined | VNull => true
  | _ => false
  end.

(** [t.k] where [t] is known not to be nullish. *)
Definition field (t : value) (k : string) : value :=
  match get t k with
  | Normal x => x
  | Throw _ => VUndefined
  end.

(** The entry that [list_themes] makes of one theme. *)
Definition theme_entry (v : variant) (t : value) : value :=
  VObj ([("id", VStr (String_ (field t "id"))); ("name", field t "name");
         ("role", field t "role")]
        ++ match v with
           | Sse => [("updated_at", field t "updated_at")]
           | StreamableHttp | Stdio => []
           end)%list.

(** The entry that [list_theme_files] makes of one asset. *)
Definition file_entry (v : variant) (a : value) : value :=
  match v with
  | Sse =>
      VObj [("key", field a "key"); ("size", field a "size");
            ("updated_at", field a "updated_at")]
  | StreamableHttp | Stdio => field a "key"
  end.

(** The answer of [write_file] for the asset that came back. *)
Definition write_reply (v : variant) (asset : value) : value :=
  JSON_stringify
    (VObj ([("success", VBool true); ("key", field asset "key")]
           ++ match v with
              | StreamableHttp => []
              | Sse | Stdio => [("updated_at", field asset "updated_at")]
              end)%list)
    match v with
    | Sse => 2
    | StreamableHttp | Stdio => 0
    end.

Fixpoint all_chars (p : ascii → bool) (s : string) : bool :=
  match s with
  | "" => true
  | String c s' => p c && all_chars p s'
  end.

(** The characters that an encoded key can hold. *)
Definition uri_safe (c : ascii) : bool := uri_unreserved c || Ascii.eqb c "%".

(** The value of a hexadecimal digit, and the byte of two of them. *)
Definition unhex_digit (c : ascii) : N :=
  let n := N_of_ascii c in
  if (n <? 58)%N then (n - 48)%N else (n - 55)%N.

Definition unhex2 (s : string) : option ascii :=
  match s with
  | String h (String l "") => Some (ascii_of_N (16 * unhex_digit h + unhex_digit l))
  | _ => None
  end.

(** *** [src/server.js]: the HTTP front of the streamable entry point *)

Module StreamableServer.

(** What the request listener does to the outside, in order.
    [HandleRequest] stands for the four steps of the [/mcp] branch: a new
    transport without session ids, a new server from [makeServer], their
    connection, and [transport.handleRequest(req, res)]. *)
Inductive action : Type :=
| SetHeader (name content : string)
| WriteHead (status : Z) (headers : list (string * string))
| End_ (body : option string)
| HandleRequest (req : SseServer.IncomingMessage).

Definition cors : list action :=
  [SetHeader "Access-Control-Allow-Origin" "*";
   SetHeader "Access-Control-Allow-Methods" "GET, POST, DELETE, OPTIONS";
   SetHeader "Access-Control-Allow-Headers" "Content-Type, Mcp-Session-Id"].

(** The listener given to [http.createServer]. *)
Definition httpServer (cfg : config) (req : SseServer.IncomingMessage) : list action :=
  if String.eqb (SseServer.method req) "OPTIONS"
  then (cors ++ [WriteHead 200 []; End_ None])%list
  else if String.eqb (SseServer.method req) "GET"
          && String.eqb (SseServer.url req) "/health"
  then (cors ++ [WriteHead 200 [("Content-Type", "application/json")];
                 End_ (SseServer.json_body
                         (VObj [("status", VStr "ok");
                                ("shop", VStr (SHOP cfg))]))])%list
  else if String.eqb (SseServer.url req) "/mcp"
  then (cors ++ [HandleRequest req])%list
  else (cors ++ [WriteHead 404 []; End_ (Some "Not found")])%list.

End StreamableServer.

(** A session map that holds the one session [spare], and messages posted
    to that session and to another. *)
Definition one_session : gmap string SseServer.Transport :=
  {[ SseServer.sessionId spare := spare ]}.

Definition post_to_spare : SseServer.IncomingMessage :=
  {| SseServer.method := "POST";
     SseServer.url := "/message?sessionId=3f0c9a52-7d1e-4b8a-9c6f-2e5d8b1a4c70" |}.

Definition post_to_other : SseServer.IncomingMessage :=
  {| SseServer.method := "POST";
     SseServer.url := "/message?sessionId=0b7e4d1c-52aa-4e0f-8f3b-9d6c1a2e7f45" |}.

Definition other : SseServer.Transport :=
  {| SseServer.sessionId := "0b7e4d1c-52aa-4e0f-8f3b-9d6c1a2e7f45";
     SseServer.stream := 1 |}.
(* ===================================================================== *)
(** ** Facts about the runtime fragment                                   *)
(* ===================================================================== *)

Lemma append_nil_r (s : string) : s +:+ "" = s.
Proof.
  induction s as [|c s IH]; [done|].
  change (String c (s +:+ "") = String c s). by rewrite IH.
Qed.

Lemma append_assoc (s1 s2 s3 : string) : (s1 +:+ s2) +:+ s3 = s1 +:+ (s2 +:+ s3).
Proof.
  induction s1 as [|c s1 IH]; [done|].
  change (String c ((s1 +:+ s2) +:+ s3) = String c (s1 +:+ s2 +:+ s3)).
  by rewrite IH.
Qed.

Lemma fold_left_append (chunks : list string) (acc : string) :
  fold_left (λ data chunk, data +:+ chunk) chunks acc = acc +:+ raw_body chunks.
Proof.
  unfold raw_body. revert acc.
  induction chunks as [|c chunks IH]; intros acc; simpl.
  - by rewrite append_nil_r.
  - rewrite IH. destruct chunks as [|c' chunks]; simpl.
    + by rewrite !append_nil_r.
    + by rewrite append_assoc.
Qed.

(** A decimal numeral is never empty. *)
Lemma pretty_N_go_nonempty (x : N) (s : string) : s ≠ "" → pretty_N_go x s ≠ "".
Proof.
  revert s. induction (N.lt_wf_0 x) as [x _ IH]; intros s Hs.
  destruct (decide (x = 0)%N) as [->|Hx].
  - by rewrite pretty_N_go_0.
  - rewrite pretty_N_go_step by lia. apply IH; [|done].
    apply N.div_lt; lia.
Qed.

Lemma pretty_Z_nonempty (n : Z) : pretty n ≠ "".
Proof.
  assert (Hpos : ∀ p : positive, pretty p ≠ "").
  { intros p. unfold pretty, pretty_positive, pretty, pretty_N.
    case_decide; [done|].
    rewrite pretty_N_go_step by lia. by apply pretty_N_go_nonempty. }
  destruct n as [|p|p]; unfold pretty, pretty_Z; [done|apply Hpos|done].
Qed.

Lemma wrap_nonempty (opening closing gap stepback : string) (partial : list string) :
  opening ≠ "" → wrap opening closing gap stepback partial ≠ "".
Proof.
  intros Ho. unfold wrap.
  destruct opening as [|c o]; [done|].
  destruct partial; [done|]. by destruct (str_truthy gap).
Qed.

(** [JSON.stringify] of a truthy value is a string, and not the empty one. *)
Lemma stringify_truthy (body : value) :
  truthy body = true →
  ∃ s, JSON_stringify body 0 = VStr s ∧ str_truthy s = true.
Proof.
  intros Hb. unfold JSON_stringify.
  assert (Hne : ∀ s : string, s ≠ "" → str_truthy s = true) by (by intros []).
  destruct body as [| |[]|n|s|xs|props]; simpl in *; try done.
  - eauto.
  - eexists; split; [done|]. apply Hne, pretty_Z_nonempty.
  - eauto.
  - eexists; split; [done|]. by apply Hne, wrap_nonempty.
  - eexists; split; [done|]. by apply Hne, wrap_nonempty.
Qed.

Lemma truthy_bodyStr (body : value) :
  truthy (if truthy body then JSON_stringify body 0 else VNull) = truthy body.
Proof.
  destruct (truthy body) eqn:Hb; [|done].
  destruct (stringify_truthy body Hb) as (s & -> & Hs). done.
Qed.

(** A decimal numeral of a natural number holds digits only. *)
Lemma pretty_N_go_digits (x : N) (s : string) :
  ∃ ds, pretty_N_go x s = ds +:+ s ∧ all_digits ds = true.
Proof.
  revert s. induction (N.lt_wf_0 x) as [x _ IH]; intros s.
  destruct (decide (x = 0)%N) as [->|Hx].
  - exists "". by rewrite pretty_N_go_0.
  - rewrite pretty_N_go_step by lia.
    destruct (IH (x `div` 10)%N) with (s := String (pretty_N_char (x `mod` 10)) s)
      as (ds & -> & Hds); [apply N.div_lt; lia|].
    exists (ds +:+ String (pretty_N_char (x `mod` 10)) ""). split.
    + by rewrite append_assoc.
    + clear -Hds. induction ds as [|c ds IHds].
      * change (is_digit (pretty_N_char (x `mod` 10)) && true = true).
        unfold pretty_N_char. by repeat case_match.
      * change (is_digit c && all_digits ds = true) in Hds.
        apply andb_true_iff in Hds as [Hc Hds].
        change (is_digit c
                && all_digits (ds +:+ String (pretty_N_char (x `mod` 10)) "")
                = true).
        by rewrite Hc, IHds.
Qed.

Lemma pretty_Z_digits (n : Z) : 0 ≤ n → all_digits (pretty n) = true.
Proof.
  intros Hn. destruct n as [|p|p]; [done| |lia].
  unfold pretty, pretty_Z, pretty, pretty_positive, pretty, pretty_N.
  case_decide; [done|].
  destruct (pretty_N_go_digits (N.pos p) "") as (ds & -> & Hds).
  by rewrite append_nil_r.
Qed.

(** Two texts of the form [digits ": " rest] that are equal have the same
    digits and the same rest. *)
Lemma digits_colon_inj (a b d d' : string) :
  all_digits a = true → all_digits b = true →
  a +:+ ": " +:+ d = b +:+ ": " +:+ d' → a = b ∧ d = d'.
Proof.
  revert b. induction a as [|c a IH]; intros [|c' b] Ha Hb Heq.
  - change (String ":" (String " " d) = String ":" (String " " d')) in Heq.
    by injection Heq as ->.
  - change (String ":" (String " " d) = String c' (b +:+ ": " +:+ d')) in Heq.
    injection Heq as <- _.
    change (is_digit ":" && all_digits b = true) in Hb. done.
  - change (String c (a +:+ ": " +:+ d) = String ":" (String " " d')) in Heq.
    injection Heq as -> _.
    change (is_digit ":" && all_digits a = true) in Ha. done.
  - change (String c (a +:+ ": " +:+ d) = String c' (b +:+ ": " +:+ d')) in Heq.
    injection Heq as -> Heq.
    change (is_digit c' && all_digits a = true) in Ha.
    change (is_digit c' && all_digits b = true) in Hb.
    apply andb_true_iff in Ha as [_ Ha]. apply andb_true_iff in Hb as [_ Hb].
    destruct (IH b Ha Hb Heq) as [-> ->]. done.
Qed.

(** The message of the error that the helper rejects with determines the
    status code and the raw body: the error carries both. *)
Lemma error_message_carries (prefix : string) (status status' : Z)
    (body body' : string) :
  0 ≤ status → 0 ≤ status' →
  prefix +:+ pretty status +:+ ": " +:+ body
  = prefix +:+ pretty status' +:+ ": " +:+ body' →
  status = status' ∧ body = body'.
Proof.
  intros Hs Hs' Heq. apply (inj (String.app prefix)) in Heq.
  apply digits_colon_inj in Heq as [Heq ->]; [|by apply pretty_Z_digits..].
  by apply (inj pretty) in Heq.
Qed.

(** The helper makes the call [request_for] and settles by [settle]. *)
Lemma shopifyRequest_eq prefix cfg JSON_parse net method path body wire :
  Rest.shopifyRequest prefix cfg JSON_parse net method path body wire
  = (settle prefix JSON_parse (net (request_for cfg method path body)),
     (wire ++ [request_for cfg method path body])%list).
Proof.
  unfold Rest.shopifyRequest, request_for, json_text, Rest.byteLength.
  rewrite !truthy_bodyStr.
  destruct (truthy body) eqn:Hb; simpl.
  - f_equal. unfold settle. destruct (net _) as [st chunks|e]; [|done].
    rewrite fold_left_append. simpl.
    destruct (400 <=? st); [done|]. by destruct (JSON_parse _).
  - f_equal. unfold settle. destruct (net _) as [st chunks|e]; [|done].
    rewrite fold_left_append. simpl.
    destruct (400 <=? st); [done|]. by destruct (JSON_parse _).
Qed.

(* ===================================================================== *)
(** ** The REST helper                                                    *)
(* ===================================================================== *)

Lemma process_shopifyRequest_eq JSON_parse net v cfg method path body wire :
  Process.shopifyRequest JSON_parse net v cfg method path body wire
  = (settle (error_prefix v) JSON_parse (net (request_for cfg method path body)),
     (wire ++ [request_for cfg method path body])%list).
Proof. destruct v; apply shopifyRequest_eq. Qed.



(** C8, as the code has it. Every call of the helper goes to
    [https://{shop}/admin/api/{version}/{path}] with the given method and
    with the access-token header set to the configured token; the
    [Content-Type: application/json] header is there on every call, with a
    body or without; what depends on the body is the [Content-Length]
    header and the writing of the body, both there exactly when the body
    is truthy. *)
Theorem shopifyRequest_call
    (JSON_parse : string → option value) (net : Outbound → Upstream)
    (v : variant) (cfg : config) (method' path' : string) (body : value)
    (wire : list Outbound) :
  ∃ req : Outbound,
    snd (Process.shopifyRequest JSON_parse net v cfg method' path' body wire)
      = (wire ++ [req])%list
    ∧ target req
      = Some ("https://" +:+ SHOP cfg +:+ "/admin/api/" +:+ API_VERSION
                +:+ "/" +:+ path')
    ∧ method (options req) = method'
    ∧ header "X-Shopify-Access-Token" req = Some (TOKEN cfg)
    ∧ header "Content-Type" req = Some (VStr "application/json")
    ∧ present (header "Content-Length" req) = truthy body
    ∧ present (written req) = truthy body.
Proof.
  exists (request_for cfg method' path' body).
  rewrite process_shopifyRequest_eq. unfold header, target. simpl.
  repeat split; by destruct (truthy body).
Qed.

(** C8 as stated fails: a [GET] without a body still carries the
    [Content-Type: application/json] header. *)
Lemma content_type_without_body :
  let sent :=
    snd (Process.shopifyRequest (λ _, None) (always (Answer 200 []))
           StreamableHttp test_cfg "GET" "themes.json" VUndefined []) in
  truthy VUndefined = false
  ∧ map written sent = [None]
  ∧ map (header "Content-Type") sent = [Some (VStr "application/json")]
  ∧ ¬ (∀ req, req ∈ sent →
         (header "Content-Type" req = Some (VStr "application/json")
          ↔ truthy VUndefined = true)).
Proof.
  rewrite process_shopifyRequest_eq. simpl.
  split; [done|]. split; [done|]. split; [done|].
  intros H. specialize (H _ (list_elem_of_here _ _)).
  destruct H as [H _]. by specialize (H eq_refl).
Qed.

(* ===================================================================== *)
(** ** The tools                                                          *)
(* ===================================================================== *)

(** Every tool has one form: one call of the helper, then a computation on
    what it resolved with that sends nothing. *)
Lemma tool_shape prefix cfg JSON_parse net method path body
    (post : value → completion value) (h : value → ToolResult)
    (wire : list Outbound) :
  (data ← Rest.shopifyRequest prefix cfg JSON_parse net method path body;
   x ← lift (post data);
   mret (h x)) wire
  = (data ← settle prefix JSON_parse (net (request_for cfg method path body));
     x ← post data;
     mret (h x),
     (wire ++ [request_for cfg method path body])%list).
Proof.
  unfold mbind at 1 2, M_bind. rewrite shopifyRequest_eq.
  destruct (settle _ _ _) as [data|e]; [|done]. simpl.
  unfold lift. by destruct (post data).
Qed.

Lemma responds_settle prefix JSON_parse net req data :
  responds JSON_parse net req data →
  settle prefix JSON_parse (net req) = Normal data.
Proof.
  intros (st & chunks & -> & Hst & Hp). unfold settle.
  destruct (Z.leb_spec 400 st); [lia|]. by rewrite Hp.
Qed.

Lemma fixture_responds (data : value) (req : Outbound) :
  responds (fixture_parse data) (fixture_net data) req data.
Proof.
  exists 200, [json_text data]. split; [done|]. split; [done|].
  unfold fixture_parse, parse_table, raw_body. simpl.
  by rewrite String.eqb_refl.
Qed.

Lemma asset_field_defined (data : value) (k k' : string) (x : value) :
  asset_field data k = Normal x → ∃ y, asset_field data k' = Normal y.
Proof.
  unfold asset_field. destruct (get data "asset") as [asset|e]; [|done]. simpl.
  destruct asset; simpl; try done; eauto.
Qed.

Ltac tool_unfold :=
  unfold IndexJs.shopify_list_themes, IndexJs.shopify_get_active_theme,
    IndexJs.shopify_list_theme_files, IndexJs.shopify_read_file,
    IndexJs.shopify_write_file, IndexJs.shopify_duplicate_theme,
    IndexJs.shopify_get_theme_settings, IndexJs.shopifyRequest,
    ServerJs.shopify_list_themes, ServerJs.shopify_get_active_theme,
    ServerJs.shopify_list_theme_files, ServerJs.shopify_read_file,
    ServerJs.shopify_write_file, ServerJs.shopify_duplicate_theme,
    ServerJs.shopify_get_theme_settings, ServerJs.shopifyRequest,
    StdioJs.shopify_list_themes, StdioJs.shopify_get_active_theme,
    StdioJs.shopify_list_theme_files, StdioJs.shopify_read_file,
    StdioJs.shopify_write_file, StdioJs.shopify_duplicate_theme,
    StdioJs.shopify_get_theme_settings, StdioJs.shopifyRequest;
  cbv zeta; rewrite !tool_shape.

(** C2, as the code has it. When the asset of the response has no truthy
    [value], [get_theme_settings] answers ["(empty)"] in all three entry
    points; [read_file] answers ["(binary)"] in the streamable HTTP and the
    stdio entry points, and in the SSE entry point it answers the asset's
    [attachment] when that is truthy and ["(binary or no content)"]
    otherwise. *)
Theorem placeholders
    (JSON_parse : string → option value) (net : Outbound → Upstream)
    (v : variant) (cfg : config) (key : string) (theme_id : option string)
    (wire : list Outbound) (data settings : value) (value value' : value) :
  responds JSON_parse net
    (asset_request cfg (or_str theme_id (ACTIVE_THEME_ID cfg)) key) data →
  asset_field data "value" = Normal value →
  truthy value = false →
  responds JSON_parse net
    (asset_request cfg (or_str theme_id (ACTIVE_THEME_ID cfg))
       "config/settings_data.json") settings →
  asset_field settings "value" = Normal value' →
  truthy value' = false →
  text_of (Process.handler JSON_parse net v cfg (get_theme_settings theme_id) wire)
    = Some (VStr "(empty)")
  ∧ ∃ attachment,
      asset_field data "attachment" = Normal attachment
      ∧ text_of (Process.handler JSON_parse net v cfg (read_file key theme_id) wire)
        = Some match v with
               | Sse => or_ attachment (VStr "(binary or no content)")
               | StreamableHttp | Stdio => VStr "(binary)"
               end.
Proof.
  intros Hd Hv Ht Hs Hv' Ht'.
  destruct (asset_field_defined data "value" "attachment" value Hv) as [att Hatt].
  split; [|exists att; split; [done|]].
  - unfold asset_request in Hs.
    destruct v; simpl; tool_unfold;
      rewrite (responds_settle _ _ _ _ _ Hs); unfold text_of; simpl;
      unfold asset_field in Hv';
      (destruct (get settings "asset") as [asset|]; [|done]); simpl in *;
      rewrite Hv'; simpl; unfold or_; by rewrite Ht'.
  - unfold asset_request in Hd.
    destruct v; simpl; tool_unfold;
      rewrite (responds_settle _ _ _ _ _ Hd); unfold text_of; simpl;
      unfold asset_field in Hv, Hatt;
      (destruct (get data "asset") as [asset|]; [|done]); simpl in *;
      rewrite Hv; simpl; rewrite ?Hatt; simpl; unfold or_; by rewrite Ht.
Qed.

Lemma placeholders_witness :
  text_of (Process.handler (fixture_parse bare_asset) (fixture_net bare_asset)
             StreamableHttp test_cfg (get_theme_settings None) [])
    = Some (VStr "(empty)")
  ∧ ∃ attachment,
      asset_field bare_asset "attachment" = Normal attachment
      ∧ text_of (Process.handler (fixture_parse bare_asset) (fixture_net bare_asset)
                   StreamableHttp test_cfg (read_file "assets/logo.png" None) [])
        = Some (VStr "(binary)").
Proof.
  apply (placeholders (fixture_parse bare_asset) (fixture_net bare_asset)
           StreamableHttp test_cfg "assets/logo.png" None [] bare_asset bare_asset
           VUndefined VUndefined).
  - exists 200, [json_text bare_asset]. repeat split; reflexivity.
  - reflexivity.
  - reflexivity.
  - exists 200, [json_text bare_asset]. repeat split; reflexivity.
  - reflexivity.
  - reflexivity.
Defined.

(** C2 as stated fails in the SSE entry point: for an asset without a
    value, [read_file] answers ["(binary or no content)"], not
    ["(binary)"]. *)
Lemma read_file_sse_placeholder :
  asset_field bare_asset "value" = Normal VUndefined
  ∧ text_of (Process.handler (fixture_parse bare_asset) (fixture_net bare_asset)
               Sse test_cfg (read_file "assets/logo.png" None) [])
    = Some (VStr "(binary or no content)")
  ∧ text_of (Process.handler (fixture_parse bare_asset) (fixture_net bare_asset)
               Sse test_cfg (read_file "assets/logo.png" None) [])
    ≠ Some (VStr "(binary)").
Proof. by vm_compute. Qed.

(** X13. [get_active_theme] makes one [GET] of [themes.json?role=main] in
    every entry point, and when the answer holds a non-empty array whose
    first entry is truthy, all three answer with that entry,
    pretty-printed. *)
Lemma get_active_theme_first JSON_parse net v cfg wire data first rest :
  responds JSON_parse net
    (request_for cfg "GET" "themes.json?role=main" VUndefined) data →
  get data "themes" = Normal (VArr (first :: rest)) →
  truthy first = true →
  Process.handler JSON_parse net v cfg get_active_theme wire
  = (Normal (text_content (JSON_stringify first 2)),
     (wire ++ [request_for cfg "GET" "themes.json?role=main" VUndefined])%list).
Proof.
  intros Hd Hthemes Hfirst.
  destruct v; simpl; tool_unfold; rewrite (responds_settle _ _ _ _ _ Hd); simpl;
    rewrite Hthemes; simpl; unfold or_; by rewrite ?Hfirst.
Qed.

(** C3, at the input where the code departs from it. When the array of
    themes is empty, the SSE entry point answers with the text [null]; the
    streamable HTTP and the stdio entry points hand [undefined] to
    [JSON.stringify], which yields [undefined], so their content item has
    no text at all. *)
Theorem get_active_theme_empty :
  responds (fixture_parse no_themes) (fixture_net no_themes)
    (request_for test_cfg "GET" "themes.json?role=main" VUndefined) no_themes
  ∧ text_of (Process.handler (fixture_parse no_themes) (fixture_net no_themes)
               Sse test_cfg get_active_theme [])
    = Some (VStr "null")
  ∧ text_of (Process.handler (fixture_parse no_themes) (fixture_net no_themes)
               StreamableHttp test_cfg get_active_theme [])
    = Some VUndefined
  ∧ text_of (Process.handler (fixture_parse no_themes) (fixture_net no_themes)
               Stdio test_cfg get_active_theme [])
    = Some VUndefined.
Proof. split; [apply fixture_responds | by vm_compute]. Qed.

(** C4, as the code has it. [duplicate_theme] makes one [POST] of
    [themes.json] whose body is [{theme: {name: new_name, role:
    "unpublished", src: duplicate-URL}}] in every entry point.  When the
    answer holds the created theme, the streamable HTTP and the stdio entry
    points answer [{success, id, name}] and the SSE entry point answers
    [{success, new_theme: {id, name}}]; in all three [id] is the string of
    the created theme's id. *)
Theorem duplicate_theme_output
    (JSON_parse : string → option value) (net : Outbound → Upstream)
    (v : variant) (cfg : config) (theme_id new_name : string)
    (wire : list Outbound) :
  let req := request_for cfg "POST" "themes.json"
               (duplicate_body cfg theme_id new_name) in
  let r := Process.handler JSON_parse net v cfg
             (duplicate_theme theme_id new_name) wire in
  snd r = (wire ++ [req])%list
  ∧ method (options req) = "POST"
  ∧ path (options req) = "/admin/api/2026-04/themes.json"
  ∧ written req = Some (json_text (duplicate_body cfg theme_id new_name))
  ∧ ∀ data theme id name,
      responds JSON_parse net req data →
      get data "theme" = Normal theme →
      get theme "id" = Normal id →
      get theme "name" = Normal name →
      text_of r
      = Some match v with
             | Sse =>
                 JSON_stringify
                   (VObj [("success", VBool true);
                          ("new_theme",
                           VObj [("id", VStr (String_ id)); ("name", name)])]) 2
             | StreamableHttp | Stdio =>
                 JSON_stringify
                   (VObj [("success", VBool true); ("id", VStr (String_ id));
                          ("name", name)]) 0
             end.
Proof.
  intros req r. subst req r.
  split; [by destruct v; simpl; tool_unfold|].
  do 3 (split; [done|]).
  intros data theme id name Hd Htheme Hid Hname.
  unfold duplicate_body in Hd.
  destruct v; simpl; tool_unfold; rewrite (responds_settle _ _ _ _ _ Hd);
    unfold text_of; simpl; rewrite Htheme; simpl; rewrite Hid; simpl;
    by rewrite Hname.
Qed.

Lemma duplicate_theme_output_witness :
  text_of (Process.handler (fixture_parse created_theme) (fixture_net created_theme)
             Stdio test_cfg (duplicate_theme "161795899724" "Backup") [])
  = Some (JSON_stringify
            (VObj [("success", VBool true); ("id", VStr "99");
                   ("name", VStr "Backup")]) 0).
Proof.
  apply (proj2 (proj2 (proj2 (proj2
           (duplicate_theme_output (fixture_parse created_theme)
              (fixture_net created_theme) Stdio test_cfg "161795899724"
              "Backup" []))))
           created_theme
           (VObj [("id", VNum 99); ("name", VStr "Backup");
                  ("role", VStr "unpublished")])
           (VNum 99) (VStr "Backup")).
  - exists 200, [json_text created_theme]. repeat split; reflexivity.
  - reflexivity.
  - reflexivity.
  - reflexivity.
Defined.

(** C4 as stated fails in the SSE entry point: the answer to a successful
    duplication is [{success, new_theme: {id, name}}], which is not the
    JSON text of [{success, id, name}] under any spacing. *)
Lemma duplicate_theme_sse_shape :
  text_of (Process.handler (fixture_parse created_theme) (fixture_net created_theme)
             Sse test_cfg (duplicate_theme "161795899724" "Backup") [])
  = Some (JSON_stringify
            (VObj [("success", VBool true);
                   ("new_theme", VObj [("id", VStr "99"); ("name", VStr "Backup")])])
            2)
  ∧ ∀ space : nat,
      text_of (Process.handler (fixture_parse created_theme)
                 (fixture_net created_theme)
                 Sse test_cfg (duplicate_theme "161795899724" "Backup") [])
      ≠ Some (JSON_stringify
                (VObj [("success", VBool true); ("id", VStr "99");
                       ("name", VStr "Backup")]) space).
Proof.
  split; [by vm_compute|].
  intros [|[|[|n]]] H; vm_compute in H; discriminate H.
Qed.

(** Each tool makes exactly one call, whatever comes back. *)
Lemma handler_one_call JSON_parse net v cfg (c : ToolCall) :
  ∃ method path body, ∀ wire,
    snd (Process.handler JSON_parse net v cfg c wire)
    = (wire ++ [request_for cfg method path body])%list.
Proof.
  destruct v, c; simpl; do 3 eexists; intros wire; tool_unfold; reflexivity.
Qed.

Lemma or_str_default (dflt : string) : or_str (Some dflt) dflt = dflt.
Proof. unfold or_str. by destruct (str_truthy dflt). Qed.

(** C5. In every entry point, each of the four tools with an optional
    [theme_id] behaves, when [theme_id] is left out, as when the configured
    default id is given: the path of its one call holds that id.  So
    [list_theme_files] without a [theme_id] makes a [GET] of
    [themes/{DEFAULT_ID}/assets.json]. *)
Theorem theme_id_default
    (JSON_parse : string → option value) (net : Outbound → Upstream)
    (v : variant) (cfg : config) (key value : string) (wire : list Outbound) :
  let call := Process.handler JSON_parse net v cfg in
  let dflt := ACTIVE_THEME_ID cfg in
  (snd (call (list_theme_files None) wire)
     = (wire ++ [request_for cfg "GET" ("themes/" +:+ dflt +:+ "/assets.json")
                   VUndefined])%list
   ∧ snd (call (read_file key None) wire)
     = (wire ++ [request_for cfg "GET"
                   ("themes/" +:+ dflt +:+ "/assets.json?asset[key]="
                      +:+ encodeURIComponent key) VUndefined])%list
   ∧ snd (call (write_file key value None) wire)
     = (wire ++ [request_for cfg "PUT" ("themes/" +:+ dflt +:+ "/assets.json")
                   (VObj [("asset", VObj [("key", VStr key);
                                          ("value", VStr value)])])])%list
   ∧ snd (call (get_theme_settings None) wire)
     = (wire ++ [request_for cfg "GET"
                   ("themes/" +:+ dflt
                      +:+ "/assets.json?asset[key]=config%2Fsettings_data.json")
                   VUndefined])%list)
  ∧ (call (list_theme_files None) wire = call (list_theme_files (Some dflt)) wire
     ∧ call (read_file key None) wire = call (read_file key (Some dflt)) wire
     ∧ call (write_file key value None) wire
       = call (write_file key value (Some dflt)) wire
     ∧ call (get_theme_settings None) wire
       = call (get_theme_settings (Some dflt)) wire)
  ∧ map (λ o, (method (options o), path (options o)))
      (snd (run (call (list_theme_files None))))
    = [("GET", "/admin/api/2026-04/themes/" +:+ dflt +:+ "/assets.json")].
Proof.
  intros call dflt. subst call dflt.
  split; [|split].
  - repeat split; destruct v; simpl; tool_unfold; reflexivity.
  - repeat split; destruct v; cbn [Process.handler]; tool_unfold;
      rewrite or_str_default; reflexivity.
  - unfold run. destruct v; simpl; tool_unfold; reflexivity.
Qed.



(* ===================================================================== *)
(** ** Configuration and start                                            *)
(* ===================================================================== *)

(** C7. In every entry point, a process started without the access-token
    variable writes a diagnostic to the error stream and exits with status
    1; that is all it ever does, whatever tool calls were on their way: it
    makes no outbound call. *)
Theorem missing_token_exits
    (JSON_parse : string → option value) (net : Outbound → Upstream)
    (v : variant) (env : gmap string string) (calls : list ToolCall) :
  env !! "SHOPIFY_ACCESS_TOKEN" = None →
  Process.main JSON_parse net v env calls
  = [Process.Stderr
       match v with
       | Sse =>
           "ERROR: SHOPIFY_ACCESS_TOKEN environment variable is required"
             +:+ newline
       | StreamableHttp | Stdio =>
           "ERROR: SHOPIFY_ACCESS_TOKEN required" +:+ newline
       end;
     Process.Exit 1]
  ∧ ∀ o, Process.Sent o ∉ Process.main JSON_parse net v env calls.
Proof.
  intros Htoken.
  assert (Hmain : Process.main JSON_parse net v env calls
                  = fst (Process.start v env)
                  ∧ snd (Process.start v env) = None).
  { unfold Process.main, Process.start, read_env, env_value. simpl.
    by rewrite Htoken. }
  destruct Hmain as [-> _].
  unfold Process.start, read_env, env_value. simpl. rewrite Htoken. simpl.
  split; [by destruct v|].
  intros o Hin.
  apply elem_of_cons in Hin as [Hin|Hin]; [destruct v; discriminate Hin|].
  apply list_elem_of_singleton in Hin. discriminate Hin.
Qed.

Lemma missing_token_exits_witness :
  Process.main (λ _, None) (always (Answer 200 [])) Stdio ∅
    [list_themes; get_active_theme]
  = [Process.Stderr ("ERROR: SHOPIFY_ACCESS_TOKEN required" +:+ newline);
     Process.Exit 1].
Proof.
  exact (proj1 (missing_token_exits (λ _, None) (always (Answer 200 [])) Stdio ∅
                  [list_themes; get_active_theme] eq_refl)).
Defined.

Lemma or_str_nonempty (a : option string) (dflt : string) :
  dflt ≠ "" → or_str a dflt ≠ "".
Proof.
  intros Hd. unfold or_str. destruct a as [[|c s]|]; simpl; done.
Qed.

(** C10. The shop hostname and the default theme id fall back to fixed
    constants when their variables are not set, so both are non-empty in
    every configuration; the start of a process ends it exactly when the
    token is missing or empty, whatever the other two variables are; and
    every call that a tool makes goes to the configured, non-empty
    hostname. *)
Theorem fallbacks
    (JSON_parse : string → option value) (net : Outbound → Upstream)
    (v : variant) (env : gmap string string) :
  let cfg := read_env env in
  (env !! "SHOPIFY_SHOP" = None → SHOP cfg = "ciro-jewelry.myshopify.com")
  ∧ (env !! "SHOPIFY_ACTIVE_THEME_ID" = None → ACTIVE_THEME_ID cfg = "161795899724")
  ∧ SHOP cfg ≠ ""
  ∧ ACTIVE_THEME_ID cfg ≠ ""
  ∧ (snd (Process.start v env) = None
     ↔ env !! "SHOPIFY_ACCESS_TOKEN" = None
       ∨ env !! "SHOPIFY_ACCESS_TOKEN" = Some "")
  ∧ (snd (Process.start v env) ≠ None → Process.start v env = ([], Some cfg))
  ∧ ∀ (c : ToolCall) (o : Outbound),
      o ∈ snd (run (Process.handler JSON_parse net v cfg c)) →
      hostname (options o) = SHOP cfg ∧ hostname (options o) ≠ "".
Proof.
  intros cfg.
  assert (Hshop : SHOP cfg ≠ "") by (by apply or_str_nonempty).
  assert (Hstart : Process.start v env
                   = if negb (truthy (TOKEN cfg))
                     then (fst (Process.start v env), None)
                     else ([], Some cfg)).
  { unfold Process.start. fold cfg. by destruct (negb _). }
  split; [by intros H; subst cfg; unfold read_env; simpl; rewrite H|].
  split; [by intros H; subst cfg; unfold read_env; simpl; rewrite H|].
  split; [done|].
  split; [by apply or_str_nonempty|].
  split; [|split].
  - rewrite Hstart. subst cfg. unfold read_env, env_value. simpl.
    destruct (env !! "SHOPIFY_ACCESS_TOKEN") as [[|c s]|]; simpl;
      (split; [intros H|intros [H|H]]); try discriminate H; auto.
  - rewrite Hstart at 1 2. by destruct (negb _).
  - intros c o.
    destruct (handler_one_call JSON_parse net v cfg c) as (m & p & b & Hsnd).
    unfold run. rewrite Hsnd. simpl. intros Ho.
    apply list_elem_of_singleton in Ho as ->. done.
Qed.

Lemma fallbacks_witness :
  SHOP (read_env test_env) = "ciro-jewelry.myshopify.com"
  ∧ ACTIVE_THEME_ID (read_env test_env) = "161795899724"
  ∧ Process.start Sse test_env = ([], Some (read_env test_env))
  ∧ hostname (options (request_for (read_env test_env) "GET" "themes.json" VUndefined))
    ≠ "".
Proof.
  pose proof (fallbacks (λ _, None) (always (Answer 200 [])) Sse test_env)
    as (Hshop & Htheme & _ & _ & _ & Hstart & Hcalls).
  split; [exact (Hshop eq_refl)|].
  split; [exact (Htheme eq_refl)|].
  split; [apply Hstart; vm_compute; discriminate|].
  apply (Hcalls list_themes). vm_compute. left.
Defined.

(* ===================================================================== *)
(** ** The session map of the SSE entry point                             *)
(* ===================================================================== *)

Section Sessions.

Variable cfg : config.
Variable searchParams_get : string → string → string → completion (option string).

Lemma transports_get_own transports k t :
  SseServer.transports_get transports k = SseServer.Own t → transports !! k = Some t.
Proof.
  unfold SseServer.transports_get.
  destruct (transports !! k); [congruence|]. by destruct (existsb _ _).
Qed.

(** X16. A message is handed to a transport only if the session map holds
    that transport under the session id of the request. *)
Lemma routed_only_if_registered transports fresh req acts c transports' t :
  SseServer.httpServer cfg searchParams_get transports fresh req
    = (acts, c, transports') →
  SseServer.HandlePostMessage t ∈ acts →
  ∃ sessionId,
    searchParams_get (SseServer.url req)
      ("http://localhost:" +:+ String_ (PORT cfg)) "sessionId" = Normal sessionId
    ∧ transports !! default "null" sessionId = Some t.
Proof.
  unfold SseServer.httpServer, SseServer.cors.
  repeat (destruct (_ : bool); simpl;
          [intros [= <- <- <-] Hin;
           repeat (apply elem_of_cons in Hin as [Hin|Hin]; [discriminate Hin|]);
           by apply elem_of_nil in Hin|]).
  destruct (_ : bool); simpl.
  - destruct (searchParams_get _ _ _) as [sid|e] eqn:Hsid.
    + destruct (SseServer.transports_get _ _) as [t'| |] eqn:Hget;
        intros [= <- <- <-] Hin;
        repeat (apply elem_of_cons in Hin as [Hin|Hin];
                [try discriminate Hin|]);
        try by apply elem_of_nil in Hin.
      injection Hin as ->. exists sid. split; [done|].
      by apply transports_get_own.
    + intros [= <- <- <-] Hin.
      repeat (apply elem_of_cons in Hin as [Hin|Hin]; [discriminate Hin|]).
      by apply elem_of_nil in Hin.
  - intros [= <- <- <-] Hin.
    repeat (apply elem_of_cons in Hin as [Hin|Hin]; [discriminate Hin|]).
    by apply elem_of_nil in Hin.
Qed.

(** X14. A posted session id that the map does not hold and that is not
    the name of a member of [Object.prototype] gets the not-found reply,
    and nothing is handed to any transport. *)
Lemma unknown_session_not_found transports fresh url sessionId :
  String.prefix "/message" url = true →
  searchParams_get url ("http://localhost:" +:+ String_ (PORT cfg)) "sessionId"
    = Normal sessionId →
  transports !! default "null" sessionId = None →
  existsb (String.eqb (default "null" sessionId)) SseServer.Object_prototype_names
    = false →
  SseServer.httpServer cfg searchParams_get transports fresh
    {| SseServer.method := "POST"; SseServer.url := url |}
  = (not_found_reply, Normal (), transports).
Proof.
  intros Hurl Hsid Hnone Hproto.
  unfold SseServer.httpServer, SseServer.transports_get.
  cbn [SseServer.method SseServer.url].
  rewrite Hurl, Hsid, Hnone, Hproto. reflexivity.
Qed.

(** X15. Once the stream of a session has closed, its id is out of the
    map, and a message posted to it gets the not-found reply. *)
Lemma closed_session_not_found transports fresh url t :
  String.prefix "/message" url = true →
  searchParams_get url ("http://localhost:" +:+ String_ (PORT cfg)) "sessionId"
    = Normal (Some (SseServer.sessionId t)) →
  existsb (String.eqb (SseServer.sessionId t)) SseServer.Object_prototype_names
    = false →
  SseServer.httpServer cfg searchParams_get (SseServer.on_close transports t) fresh
    {| SseServer.method := "POST"; SseServer.url := url |}
  = (not_found_reply, Normal (), SseServer.on_close transports t).
Proof.
  intros Hurl Hsid Hproto.
  unfold SseServer.httpServer, SseServer.transports_get, SseServer.on_close.
  cbn [SseServer.method SseServer.url].
  rewrite Hurl, Hsid.
  change (default "null" (Some (SseServer.sessionId t)))
    with (SseServer.sessionId t).
  rewrite lookup_delete_eq, Hproto. reflexivity.
Qed.

End Sessions.

(** C6, at the input where the code departs from it. No session was ever
    opened, so the session map is empty, and a message is posted with the
    session id [constructor].  Reading [transports["constructor"]] yields
    the member that the map object inherits, which is truthy, so the
    not-found branch is skipped; the call of [handlePostMessage] on it
    throws, and the listener ends without having written any response. *)
Theorem inherited_name_skips_not_found :
  let req := {| SseServer.method := "POST";
                SseServer.url := "/message?sessionId=constructor" |} in
  (∅ : gmap string SseServer.Transport) !! "constructor" = None
  ∧ SseServer.plain_query_get (SseServer.url req)
      ("http://localhost:" +:+ String_ (PORT test_cfg)) "sessionId"
    = Normal (Some "constructor")
  ∧ SseServer.httpServer test_cfg SseServer.plain_query_get ∅ spare req
    = (SseServer.cors, Throw TypeError, ∅)
  ∧ SseServer.httpServer test_cfg SseServer.plain_query_get ∅ spare req
    ≠ (not_found_reply, Normal (), ∅).
Proof. by vm_compute. Qed.

(* ===================================================================== *)
(** ** Every tool: what it sends and how it fails                         *)
(* ===================================================================== *)

(** The handler of a tool makes the call [tool_request], and fails as the
    helper fails. *)
Lemma handler_request JSON_parse net v cfg (c : ToolCall) (wire : list Outbound) :
  snd (Process.handler JSON_parse net v cfg c wire)
    = (wire ++ [tool_request cfg c])%list
  ∧ ∀ e, settle (error_prefix v) JSON_parse (net (tool_request cfg c)) = Throw e →
         fst (Process.handler JSON_parse net v cfg c wire) = Throw e.
Proof.
  destruct v, c; simpl; tool_unfold; (split; [reflexivity|]);
    intros e He; unfold asset_request, duplicate_body in He; simpl;
    by rewrite He.
Qed.

Lemma get_throws (v : value) (k : string) (e : exn) :
  get v k = Throw e → e = TypeError.
Proof. destruct v; simpl; congruence. Qed.



(** X2. In every entry point and for every tool, an error of the outbound
    request itself makes the tool call fail with that error, after the one
    call. *)
Theorem tool_network_error
    (JSON_parse : string → option value) (net : Outbound → Upstream)
    (v : variant) (cfg : config) (c : ToolCall) (wire : list Outbound)
    (e : string) :
  net (tool_request cfg c) = Failure e →
  Process.handler JSON_parse net v cfg c wire
  = (Throw (NetError e), (wire ++ [tool_request cfg c])%list).
Proof.
  intros Hnet.
  destruct (handler_request JSON_parse net v cfg c wire) as [Hsnd Hfst].
  rewrite (surjective_pairing (Process.handler _ _ _ _ _ _)), Hsnd.
  f_equal. apply Hfst. by rewrite Hnet.
Qed.

Lemma tool_network_error_witness :
  Process.handler (λ _, None) (always (Failure "ECONNRESET")) Sse test_cfg
    list_themes []
  = (Throw (NetError "ECONNRESET"), [tool_request test_cfg list_themes]).
Proof.
  apply (tool_network_error (λ _, None) (always (Failure "ECONNRESET")) Sse
           test_cfg list_themes [] "ECONNRESET").
  reflexivity.
Defined.

(** X3. When the upstream answers with a status below 400 and a body that
    is not JSON, the helper resolves with the raw text, and then every
    tool, in every entry point, fails with a [TypeError]: the text has none
    of the members that the tools read. *)
Theorem tool_unparsable_body
    (JSON_parse : string → option value) (net : Outbound → Upstream)
    (v : variant) (cfg : config) (c : ToolCall) (wire : list Outbound)
    (statusCode : Z) (chunks : list string) :
  net (tool_request cfg c) = Answer statusCode chunks →
  statusCode < 400 →
  JSON_parse (raw_body chunks) = None →
  Process.handler JSON_parse net v cfg c wire
  = (Throw TypeError, (wire ++ [tool_request cfg c])%list).
Proof.
  intros Hnet Hst Hparse.
  assert (Hsettle : settle (error_prefix v) JSON_parse (net (tool_request cfg c))
                    = Normal (VStr (raw_body chunks))).
  { rewrite Hnet. unfold settle.
    destruct (Z.leb_spec 400 statusCode); [lia|]. by rewrite Hparse. }
  destruct v, c; simpl in *; tool_unfold;
    unfold asset_request, duplicate_body in Hsettle; by rewrite Hsettle.
Qed.

Lemma tool_unparsable_body_witness :
  Process.handler (λ _, None) (always (Answer 200 ["<html>"])) StreamableHttp
    test_cfg (read_file "layout/theme.liquid" None) []
  = (Throw TypeError,
     [tool_request test_cfg (read_file "layout/theme.liquid" None)]).
Proof.
  apply (tool_unparsable_body (λ _, None) (always (Answer 200 ["<html>"]))
           StreamableHttp test_cfg (read_file "layout/theme.liquid" None) []
           200 ["<html>"]).
  - reflexivity.
  - lia.
  - reflexivity.
Defined.

(** X4. When the answer parses but lacks the member that the tool reads
    first ([themes], [assets], [asset] or [theme]), or holds [null] there,
    the tool fails with a [TypeError], in every entry point. *)
Theorem tool_missing_member
    (JSON_parse : string → option value) (net : Outbound → Upstream)
    (v : variant) (cfg : config) (c : ToolCall) (wire : list Outbound)
    (data : value) :
  responds JSON_parse net (tool_request cfg c) data →
  nullish (field data (top_member c)) = true →
  Process.handler JSON_parse net v cfg c wire
  = (Throw TypeError, (wire ++ [tool_request cfg c])%list).
Proof.
  intros Hd Hnull.
  pose proof (responds_settle (error_prefix v) _ _ _ _ Hd) as Hsettle.
  unfold field in Hnull.
  destruct v, c; simpl in *; tool_unfold;
    unfold asset_request, duplicate_body in Hsettle; rewrite Hsettle; simpl;
    (destruct (get data _) as [m|e] eqn:Hget; simpl;
     [by destruct m | by rewrite (get_throws _ _ _ Hget)]).
Qed.

Lemma tool_missing_member_witness :
  Process.handler (fixture_parse no_themes) (fixture_net no_themes) Sse test_cfg
    (get_theme_settings None) []
  = (Throw TypeError, [tool_request test_cfg (get_theme_settings None)]).
Proof.
  apply (tool_missing_member (fixture_parse no_themes) (fixture_net no_themes)
           Sse test_cfg (get_theme_settings None) [] no_themes).
  - exists 200, [json_text no_themes]. repeat split; reflexivity.
  - reflexivity.
Defined.

(* ===================================================================== *)
(** ** The listing tools and [write_file]                                 *)
(* ===================================================================== *)

(** [Array.prototype.map] with a callback that throws on some entries and
    not on others: the first bad entry ends the whole [map]. *)
Lemma mapM_all_or_nothing (ok : value → bool) (f : value → completion value)
    (g : value → value) (l : list value) :
  (∀ x, f x = if ok x then Normal (g x) else Throw TypeError) →
  mapM f l = if forallb ok l then Normal (map g l) else Throw TypeError.
Proof.
  intros Hf. induction l as [|x l IH]; simpl; [done|].
  rewrite Hf. destruct (ok x); simpl; [|done].
  rewrite IH. by destruct (forallb ok l).
Qed.

(** X5. [list_themes] answers with one entry per theme of the response, in
    order, each holding the theme's id as a string, its name and its role
    (and, in the SSE entry point, its [updated_at]); if any entry of the
    array is [null], the whole call fails with a [TypeError] and no
    partial list is returned. *)
Theorem list_themes_entries
    (JSON_parse : string → option value) (net : Outbound → Upstream)
    (v : variant) (cfg : config) (wire : list Outbound)
    (data : value) (themes : list value) :
  responds JSON_parse net (tool_request cfg list_themes) data →
  get data "themes" = Normal (VArr themes) →
  fst (Process.handler JSON_parse net v cfg list_themes wire)
  = if forallb (λ t, negb (nullish t)) themes
    then Normal (text_content (JSON_stringify (VArr (map (theme_entry v) themes)) 2))
    else Throw TypeError.
Proof.
  intros Hd Hthemes.
  pose proof (responds_settle (error_prefix v) _ _ _ _ Hd) as Hsettle.
  destruct v; simpl in *; tool_unfold; rewrite Hsettle; simpl;
    rewrite Hthemes; simpl;
    erewrite (mapM_all_or_nothing (λ t, negb (nullish t)) _ (theme_entry _));
    try (by destruct (forallb _ themes));
    by intros [].
Qed.

Lemma list_themes_entries_witness :
  fst (Process.handler
         (fixture_parse (VObj [("themes", VArr [VObj [("id", VNum 7)]; VNull])]))
         (fixture_net (VObj [("themes", VArr [VObj [("id", VNum 7)]; VNull])]))
         Stdio test_cfg list_themes [])
  = Throw TypeError.
Proof.
  apply (list_themes_entries
           (fixture_parse (VObj [("themes", VArr [VObj [("id", VNum 7)]; VNull])]))
           (fixture_net (VObj [("themes", VArr [VObj [("id", VNum 7)]; VNull])]))
           Stdio test_cfg []
           (VObj [("themes", VArr [VObj [("id", VNum 7)]; VNull])])
           [VObj [("id", VNum 7)]; VNull]).
  - eexists 200, [_]. repeat split; reflexivity.
  - reflexivity.
Defined.

(** X6. [list_theme_files] answers with one entry per asset of the
    response, in order: the asset's key in the streamable HTTP and the
    stdio entry points, and [{key, size, updated_at}] in the SSE entry
    point; a [null] entry makes the whole call fail with a [TypeError]. *)
Theorem list_theme_files_entries
    (JSON_parse : string → option value) (net : Outbound → Upstream)
    (v : variant) (cfg : config) (theme_id : option string)
    (wire : list Outbound) (data : value) (assets : list value) :
  responds JSON_parse net (tool_request cfg (list_theme_files theme_id)) data →
  get data "assets" = Normal (VArr assets) →
  fst (Process.handler JSON_parse net v cfg (list_theme_files theme_id) wire)
  = if forallb (λ a, negb (nullish a)) assets
    then Normal (text_content (JSON_stringify (VArr (map (file_entry v) assets)) 2))
    else Throw TypeError.
Proof.
  intros Hd Hassets.
  pose proof (responds_settle (error_prefix v) _ _ _ _ Hd) as Hsettle.
  destruct v; simpl in *; tool_unfold; rewrite Hsettle; simpl;
    rewrite Hassets; simpl;
    erewrite (mapM_all_or_nothing (λ a, negb (nullish a)) _ (file_entry _));
    try (by destruct (forallb _ assets));
    by intros [].
Qed.

Lemma list_theme_files_entries_witness :
  fst (Process.handler
         (fixture_parse (VObj [("assets", VArr [VObj [("key", VStr "a.css")]])]))
         (fixture_net (VObj [("assets", VArr [VObj [("key", VStr "a.css")]])]))
         StreamableHttp test_cfg (list_theme_files None) [])
  = Normal (text_content (JSON_stringify (VArr [VStr "a.css"]) 2)).
Proof.
  apply (list_theme_files_entries
           (fixture_parse (VObj [("assets", VArr [VObj [("key", VStr "a.css")]])]))
           (fixture_net (VObj [("assets", VArr [VObj [("key", VStr "a.css")]])]))
           StreamableHttp test_cfg None []
           (VObj [("assets", VArr [VObj [("key", VStr "a.css")]])])
           [VObj [("key", VStr "a.css")]]).
  - eexists 200, [_]. repeat split; reflexivity.
  - reflexivity.
Defined.

(** X7. [write_file] makes one [PUT] of [themes/{id}/assets.json] whose
    body is the compact JSON text of [{asset: {key, value}}].  When an
    asset comes back, the answer takes its [key] from that asset, not from
    the input: [{success, key, updated_at}] pretty-printed in the SSE entry
    point, [{success, key}] in the streamable HTTP entry point, and
    [{success, key, updated_at}] in the stdio entry point. *)
Theorem write_file_output
    (JSON_parse : string → option value) (net : Outbound → Upstream)
    (v : variant) (cfg : config) (key value : string) (theme_id : option string)
    (wire : list Outbound) :
  let req := tool_request cfg (write_file key value theme_id) in
  let r := Process.handler JSON_parse net v cfg (write_file key value theme_id) wire in
  snd r = (wire ++ [req])%list
  ∧ method (options req) = "PUT"
  ∧ path (options req)
    = "/admin/api/2026-04/themes/" +:+ or_str theme_id (ACTIVE_THEME_ID cfg)
        +:+ "/assets.json"
  ∧ written req
    = Some (json_text (VObj [("asset", VObj [("key", VStr key);
                                             ("value", VStr value)])]))
  ∧ ∀ data asset,
      responds JSON_parse net req data →
      get data "asset" = Normal asset →
      nullish asset = false →
      text_of r = Some (write_reply v asset).
Proof.
  intros req r. subst req r.
  split; [apply handler_request|]. do 3 (split; [reflexivity|]).
  intros data asset Hd Hasset Hnull.
  pose proof (responds_settle (error_prefix v) _ _ _ _ Hd) as Hsettle.
  unfold write_reply, field.
  destruct v; simpl in *; tool_unfold; rewrite Hsettle; unfold text_of; simpl;
    rewrite Hasset; simpl; by destruct asset.
Qed.

Lemma write_file_output_witness :
  text_of (Process.handler
             (fixture_parse (VObj [("asset", VObj [("key", VStr "a.css")])]))
             (fixture_net (VObj [("asset", VObj [("key", VStr "a.css")])]))
             StreamableHttp test_cfg (write_file "b.css" "body{}" None) [])
  = Some (write_reply StreamableHttp (VObj [("key", VStr "a.css")])).
Proof.
  apply (proj2 (proj2 (proj2 (proj2
           (write_file_output
              (fixture_parse (VObj [("asset", VObj [("key", VStr "a.css")])]))
              (fixture_net (VObj [("asset", VObj [("key", VStr "a.css")])]))
              StreamableHttp test_cfg "b.css" "body{}" None []))))
           (VObj [("asset", VObj [("key", VStr "a.css")])])
           (VObj [("key", VStr "a.css")])).
  - eexists 200, [_]. repeat split; reflexivity.
  - reflexivity.
  - reflexivity.
Defined.

(** X8. On every call of the helper the [Content-Length] header and the
    body agree: when a body is written, the header holds its length in
    bytes, and when none is written, there is no such header. *)
Theorem content_length_matches_body
    (JSON_parse : string → option value) (net : Outbound → Upstream)
    (v : variant) (cfg : config) (method' path' : string) (body : value)
    (wire : list Outbound) :
  ∃ req : Outbound,
    snd (Process.shopifyRequest JSON_parse net v cfg method' path' body wire)
      = (wire ++ [req])%list
    ∧ header "Content-Length" req
      = (λ s, VNum (Z.of_nat (String.length s))) <$> written req.
Proof.
  exists (request_for cfg method' path' body).
  rewrite process_shopifyRequest_eq. split; [done|].
  unfold header. simpl. by destruct (truthy body).
Qed.

(** X9. When the asset that comes back has a truthy [value], [read_file]
    and [get_theme_settings] answer with exactly that value, in every entry
    point. *)
Theorem textual_value_verbatim
    (JSON_parse : string → option value) (net : Outbound → Upstream)
    (v : variant) (cfg : config) (key : string) (theme_id : option string)
    (c : ToolCall) (wire : list Outbound) (data value : value) :
  c = read_file key theme_id ∨ c = get_theme_settings theme_id →
  responds JSON_parse net (tool_request cfg c) data →
  asset_field data "value" = Normal value →
  truthy value = true →
  text_of (Process.handler JSON_parse net v cfg c wire) = Some value.
Proof.
  intros Hc Hd Hvalue Ht.
  pose proof (responds_settle (error_prefix v) _ _ _ _ Hd) as Hsettle.
  unfold asset_field in Hvalue.
  destruct Hc as [-> | ->];
    destruct v; simpl in *; tool_unfold;
    unfold asset_request in Hsettle; rewrite Hsettle; unfold text_of; simpl;
    (destruct (get data "asset") as [asset|]; [|done]); simpl in *;
    rewrite Hvalue; simpl;
    try (destruct (get asset "attachment") as [att|] eqn:Hatt;
         [|by destruct asset]; simpl);
    unfold or_; by rewrite ?Ht.
Qed.

Lemma textual_value_verbatim_witness :
  text_of (Process.handler
             (fixture_parse (VObj [("asset", VObj [("value", VStr "{% layout %}")])]))
             (fixture_net (VObj [("asset", VObj [("value", VStr "{% layout %}")])]))
             Sse test_cfg (read_file "layout/theme.liquid" None) [])
  = Some (VStr "{% layout %}").
Proof.
  apply (textual_value_verbatim
           (fixture_parse (VObj [("asset", VObj [("value", VStr "{% layout %}")])]))
           (fixture_net (VObj [("asset", VObj [("value", VStr "{% layout %}")])]))
           Sse test_cfg "layout/theme.liquid" None
           (read_file "layout/theme.liquid" None) []
           (VObj [("asset", VObj [("value", VStr "{% layout %}")])])
           (VStr "{% layout %}")).
  - left. reflexivity.
  - eexists 200, [_]. repeat split; reflexivity.
  - reflexivity.
  - reflexivity.
Defined.

(* ===================================================================== *)
(** ** Theme ids and asset keys in the path                               *)
(* ===================================================================== *)



Lemma all_chars_app (p : ascii → bool) (a b : string) :
  all_chars p (a +:+ b) = all_chars p a && all_chars p b.
Proof.
  induction a as [|c a IH]; [done|].
  change (p c && all_chars p (a +:+ b) = p c && all_chars p a && all_chars p b).
  rewrite IH. by destruct (p c).
Qed.

Lemma hex2_safe (c : ascii) : all_chars uri_safe (hex2 true c) = true.
Proof. by destruct c as [[] [] [] [] [] [] [] []]. Qed.

Lemma unhex2_hex2 (c : ascii) : unhex2 (hex2 true c) = Some c.
Proof. by destruct c as [[] [] [] [] [] [] [] []]. Qed.

Lemma encode_cons_plain (c : ascii) (s : string) :
  uri_unreserved c = true →
  encodeURIComponent (String c s) = String c (encodeURIComponent s).
Proof.
  intros H.
  change (encodeURIComponent (String c s))
    with ((if uri_unreserved c then String c "" else "%" +:+ hex2 true c)
          +:+ encodeURIComponent s).
  by rewrite H.
Qed.

Lemma encode_cons_escaped (c : ascii) (s : string) :
  uri_unreserved c = false →
  encodeURIComponent (String c s)
  = String "%" (hex2 true c +:+ encodeURIComponent s).
Proof.
  intros H.
  change (encodeURIComponent (String c s))
    with ((if uri_unreserved c then String c "" else "%" +:+ hex2 true c)
          +:+ encodeURIComponent s).
  by rewrite H.
Qed.

Lemma encode_safe (s : string) : all_chars uri_safe (encodeURIComponent s) = true.
Proof.
  induction s as [|c s IH]; [done|].
  destruct (uri_unreserved c) eqn:Hc.
  - rewrite encode_cons_plain by done.
    change (uri_safe c && all_chars uri_safe (encodeURIComponent s) = true).
    rewrite IH. unfold uri_safe. by rewrite Hc.
  - rewrite encode_cons_escaped by done.
    change (uri_safe "%" && all_chars uri_safe (hex2 true c +:+ encodeURIComponent s)
            = true).
    by rewrite all_chars_app, hex2_safe, IH.
Qed.

Lemma hex2_app_inj (c c' : ascii) (s s' : string) :
  hex2 true c +:+ s = hex2 true c' +:+ s' → c = c' ∧ s = s'.
Proof.
  intros H.
  assert (Hsplit : ∀ (x : ascii) (t : string),
            hex2 true x +:+ t
            = String (hex_digit true (N_of_ascii x / 16)%N)
                (String (hex_digit true (N_of_ascii x mod 16)%N) t)) by done.
  rewrite !Hsplit in H. injection H as Hh Hl ->. split; [|done].
  assert (Heq : hex2 true c = hex2 true c') by (unfold hex2; by rewrite Hh, Hl).
  pose proof (unhex2_hex2 c) as Hc. rewrite Heq, unhex2_hex2 in Hc.
  by injection Hc.
Qed.

Lemma encode_inj (s s' : string) :
  encodeURIComponent s = encodeURIComponent s' → s = s'.
Proof.
  revert s'. induction s as [|c s IH]; intros [|c' s'] H.
  - done.
  - destruct (uri_unreserved c') eqn:Hc';
      [rewrite encode_cons_plain in H by done
      |rewrite encode_cons_escaped in H by done]; discriminate H.
  - destruct (uri_unreserved c) eqn:Hc;
      [rewrite encode_cons_plain in H by done
      |rewrite encode_cons_escaped in H by done]; discriminate H.
  - destruct (uri_unreserved c) eqn:Hc, (uri_unreserved c') eqn:Hc';
      rewrite ?(encode_cons_plain c), ?(encode_cons_plain c'),
        ?(encode_cons_escaped c), ?(encode_cons_escaped c') in H by done.
    + injection H as -> H. by rewrite (IH _ H).
    + injection H as -> _. discriminate Hc.
    + injection H as <- _. discriminate Hc'.
    + apply (f_equal (λ t, match t with String _ r => r | "" => "" end)) in H.
      cbv beta iota in H. apply hex2_app_inj in H as [-> H].
      by rewrite (IH _ H).
Qed.

(** X11. The key of [read_file] enters the path percent-encoded: what
    follows [asset[key]=] holds only unreserved characters and [%], so no
    key can add a parameter, a fragment or a path segment; and two
    different keys never give the same call. *)
Theorem read_file_key_encoded
    (JSON_parse : string → option value) (net : Outbound → Upstream)
    (v : variant) (cfg : config) (key key' : string) (theme_id : option string)
    (wire : list Outbound) :
  (∃ req encoded,
     snd (Process.handler JSON_parse net v cfg (read_file key theme_id) wire)
       = (wire ++ [req])%list
     ∧ path (options req)
       = "/admin/api/2026-04/themes/" +:+ or_str theme_id (ACTIVE_THEME_ID cfg)
           +:+ "/assets.json?asset[key]=" +:+ encoded
     ∧ all_chars uri_safe encoded = true)
  ∧ (key ≠ key' →
     snd (Process.handler JSON_parse net v cfg (read_file key theme_id) wire)
     ≠ snd (Process.handler JSON_parse net v cfg (read_file key' theme_id) wire)).
Proof.
  split.
  - eexists _, (encodeURIComponent key).
    split; [apply handler_request|]. split; [reflexivity|apply encode_safe].
  - rewrite !(proj1 (handler_request _ _ _ _ _ _)).
    intros Hne H. apply Hne. apply app_inv_head in H. injection H as H.
    do 3 apply (inj (String.app _)) in H. by apply encode_inj.
Qed.

Lemma read_file_key_encoded_witness :
  snd (Process.handler (λ _, None) (always (Answer 200 [])) Sse test_cfg
         (read_file "a b" None) [])
  ≠ snd (Process.handler (λ _, None) (always (Answer 200 [])) Sse test_cfg
           (read_file "a%20b" None) []).
Proof.
  apply (proj2 (read_file_key_encoded (λ _, None) (always (Answer 200 []))
                  Sse test_cfg "a b" "a%20b" None [])).
  intros H. discriminate H.
Defined.

(* ===================================================================== *)
(** ** A whole run                                                        *)
(* ===================================================================== *)



Lemma get_active_theme_first_witness :
  Process.handler
    (fixture_parse (VObj [("themes", VArr [VObj [("id", VNum 7)]])]))
    (fixture_net (VObj [("themes", VArr [VObj [("id", VNum 7)]])]))
    Stdio test_cfg get_active_theme []
  = (Normal (text_content (JSON_stringify (VObj [("id", VNum 7)]) 2)),
     [request_for test_cfg "GET" "themes.json?role=main" VUndefined]).
Proof.
  apply (get_active_theme_first
           (fixture_parse (VObj [("themes", VArr [VObj [("id", VNum 7)]])]))
           (fixture_net (VObj [("themes", VArr [VObj [("id", VNum 7)]])]))
           Stdio test_cfg []
           (VObj [("themes", VArr [VObj [("id", VNum 7)]])])
           (VObj [("id", VNum 7)]) []).
  - eexists 200, [_]. repeat split; reflexivity.
  - reflexivity.
  - reflexivity.
Defined.

(* ===================================================================== *)
(** ** More on the two HTTP fronts                                        *)
(* ===================================================================== *)

Lemma unknown_session_not_found_witness :
  SseServer.httpServer test_cfg SseServer.plain_query_get ∅ spare post_to_other
  = (not_found_reply, Normal (), ∅).
Proof.
  apply (unknown_session_not_found test_cfg SseServer.plain_query_get ∅ spare
           (SseServer.url post_to_other)
           (Some "0b7e4d1c-52aa-4e0f-8f3b-9d6c1a2e7f45")).
  - reflexivity.
  - reflexivity.
  - reflexivity.
  - reflexivity.
Defined.

Lemma closed_session_not_found_witness :
  SseServer.httpServer test_cfg SseServer.plain_query_get
    (SseServer.on_close one_session spare) other post_to_spare
  = (not_found_reply, Normal (), SseServer.on_close one_session spare).
Proof.
  apply (closed_session_not_found test_cfg SseServer.plain_query_get one_session
           other (SseServer.url post_to_spare) spare).
  - reflexivity.
  - reflexivity.
  - reflexivity.
Defined.

Lemma routed_only_if_registered_witness :
  ∃ sessionId,
    SseServer.plain_query_get (SseServer.url post_to_spare)
      ("http://localhost:" +:+ String_ (PORT test_cfg)) "sessionId"
    = Normal sessionId
    ∧ one_session !! default "null" sessionId = Some spare.
Proof.
  apply (routed_only_if_registered test_cfg SseServer.plain_query_get one_session
           other post_to_spare
           (SseServer.cors ++ [SseServer.HandlePostMessage spare])%list
           (Normal ()) one_session spare).
  - reflexivity.
  - do 3 apply list_elem_of_further. apply list_elem_of_here.
Defined.





(** X19. The listener of the SSE entry point changes the session map on
    [GET /sse] only, where it stores the new transport under its session
    id; every other request, a posted message included, leaves the map as
    it is. *)
Theorem session_map_changes_on_sse_only
    (cfg : config)
    (searchParams_get : string → string → string → completion (option string))
    (transports : gmap string SseServer.Transport)
    (fresh : SseServer.Transport) (req : SseServer.IncomingMessage) :
  snd (SseServer.httpServer cfg searchParams_get transports fresh req)
  = if String.eqb (SseServer.method req) "GET"
       && String.eqb (SseServer.url req) "/sse"
    then <[SseServer.sessionId fresh := fresh]> transports
    else transports.
Proof.
  unfold SseServer.httpServer.
  destruct (String.eqb (SseServer.method req) "OPTIONS") eqn:Ho.
  { apply String.eqb_eq in Ho. rewrite Ho. reflexivity. }
  destruct (String.eqb (SseServer.method req) "GET") eqn:Hg; cbn [andb].
  - apply String.eqb_eq in Hg. rewrite Hg.
    destruct (String.eqb (SseServer.url req) "/health") eqn:Hh.
    { apply String.eqb_eq in Hh. rewrite Hh. reflexivity. }
    destruct (String.eqb (SseServer.url req) "/sse"); reflexivity.
  - destruct (String.eqb (SseServer.method req) "POST"
              && String.prefix "/message" (SseServer.url req)); [|reflexivity].
    destruct (searchParams_get _ _ _); [|reflexivity].
    destruct (SseServer.transports_get _ _); reflexivity.
Qed.


(** X21. The front of the streamable HTTP entry point hands a request to
    the MCP transport exactly when its URL is [/mcp], with nothing after
    it, and its method is not [OPTIONS]: a [GET] or a [DELETE] of [/mcp]
    is handed on like a [POST], and [/mcp?x=1] is not. *)
Theorem mcp_route
    (cfg : config) (req handed : SseServer.IncomingMessage) :
  StreamableServer.HandleRequest handed ∈ StreamableServer.httpServer cfg req
  ↔ handed = req
    ∧ SseServer.url req = "/mcp"
    ∧ SseServer.method req ≠ "OPTIONS".
Proof.
  unfold StreamableServer.httpServer, StreamableServer.cors.
  destruct (String.eqb (SseServer.method req) "OPTIONS") eqn:Ho.
  - apply String.eqb_eq in Ho. split; [|by intros (_ & _ & H)].
    intros Hin. cbn [app] in Hin.
    repeat (apply elem_of_cons in Hin as [Hin|Hin]; [discriminate Hin|]).
    by apply elem_of_nil in Hin.
  - apply String.eqb_neq in Ho.
    destruct (String.eqb (SseServer.url req) "/mcp") eqn:Hu.
    + apply String.eqb_eq in Hu. rewrite Hu, andb_false_r. cbn [app]. split.
      * intros Hin.
        repeat (apply elem_of_cons in Hin as [Hin|Hin]; [discriminate Hin|]).
        apply list_elem_of_singleton in Hin. by injection Hin as ->.
      * intros (-> & _ & _). do 3 apply list_elem_of_further.
        apply list_elem_of_here.
    + apply String.eqb_neq in Hu. split; [|by intros (_ & H & _)].
      intros Hin.
      destruct (String.eqb (SseServer.method req) "GET"
                && String.eqb (SseServer.url req) "/health");
        cbn [app] in Hin;
        repeat (apply elem_of_cons in Hin as [Hin|Hin]; [discriminate Hin|]);
        by apply elem_of_nil in Hin.
Qed.
